(** * anemoi.utils.provenance: a shallow embedding and its properties

    The development follows [src/anemoi/utils/provenance.py].  Python text
    is modelled by [string]; dictionaries whose iteration order matters
    ([roots]) are association lists, the others are [gmap]s; sets are
    [gset]s.  Calls into the host (GitPython, nvsmi, the file system) are
    section variables returning an [outcome]. *)

From Stdlib Require Import Ascii String.
From stdpp Require Import base option list strings pretty sorting gmap.

Local Open Scope string_scope.

Set Warnings "-register-all".

(** ** Python string primitives *)

(** [s.startswith(pre)] *)
Definition startswith (s pre : string) : bool := String.prefix pre s.

(** [sub in s] *)
Fixpoint occurs (sub s : string) : bool :=
  match s with
  | EmptyString => String.prefix sub ""
  | String _ s' => String.prefix sub s || occurs sub s'
  end.

(** [c in s] for a single character *)
Fixpoint has_char (c : ascii) (s : string) : bool :=
  match s with
  | EmptyString => false
  | String d s' => Ascii.eqb c d || has_char c s'
  end.

(** [s.replace("", new)]: [new] is put before every character and at the
    end. *)
Fixpoint replace_empty (new s : string) : string :=
  match s with
  | EmptyString => new
  | String c s' => new ++ String c (replace_empty new s')
  end.

(** The scan of [s.replace(old, new)] for a non-empty [old]: occurrences
    are taken left to right and do not overlap; [skip] counts the
    characters of a matched occurrence still to be passed over. *)
Fixpoint replace_go (old new : string) (skip : nat) (s : string) : string :=
  match s with
  | EmptyString => ""
  | String c s' =>
      match skip with
      | S k => replace_go old new k s'
      | O =>
          if String.prefix old s
          then new ++ replace_go old new (String.length old - 1) s'
          else String c (replace_go old new 0 s')
      end
  end.

(** [s.replace(old, new)] *)
Definition replace (old new s : string) : string :=
  match old with
  | EmptyString => replace_empty new s
  | String _ _ => replace_go old new 0 s
  end.

Definition slash : ascii := "/"%char.

(** [p[:p.rfind("/") + 1]] *)
Fixpoint upto_last_slash (p : string) : string :=
  match p with
  | EmptyString => ""
  | String c p' =>
      if has_char slash p' then String c (upto_last_slash p')
      else if Ascii.eqb c slash then "/" else ""
  end.

(** [p[p.rfind("/") + 1:]], which is [os.path.basename(p)] *)
Fixpoint basename (p : string) : string :=
  match p with
  | EmptyString => ""
  | String c p' =>
      if has_char slash p' then basename p'
      else if Ascii.eqb c slash then p' else p
  end.

(** [head == "/" * len(head)] *)
Fixpoint all_slashes (s : string) : bool :=
  match s with
  | EmptyString => true
  | String c s' => Ascii.eqb c slash && all_slashes s'
  end.

(** [s.rstrip("/")] *)
Fixpoint rstrip_slash (s : string) : string :=
  match s with
  | EmptyString => ""
  | String c s' =>
      match rstrip_slash s' with
      | EmptyString => if Ascii.eqb c slash then "" else String c ""
      | r => String c r
      end
  end.

(** [os.path.dirname(p)] of posixpath: the head up to the last slash,
    with trailing slashes removed unless the head consists of slashes
    only. *)
Definition dirname (p : string) : string :=
  let head := upto_last_slash p in
  if negb (String.eqb head "") && negb (all_slashes head)
  then rstrip_slash head
  else head.

(** [os.path.join(a, b)] of posixpath for two components *)
Definition path_join (a b : string) : string :=
  if startswith b "/" then b
  else if String.eqb a "" || startswith (String.rev a) "/" then a ++ b
  else a ++ "/" ++ b.


(** [s.split(c)] for a one-character separator *)
Fixpoint split_on (c : ascii) (s : string) : list string :=
  match s with
  | EmptyString => [""]
  | String d s' =>
      if Ascii.eqb d c then "" :: split_on c s'
      else match split_on c s' with
           | [] => [String d ""]
           | h :: t => String d h :: t
           end
  end.

(** ** Exceptions and outcomes *)

(** The exception classes the module meets.  All of them derive from
    [Exception]; [UnicodeDecodeError] is a subclass of [ValueError], and
    GitPython's [NoSuchPathError] and [GitCommandError] are not. *)
Inductive exn : Type :=
  | AttributeError (msg : string)
  | ValueError (msg : string)
  | UnicodeDecodeError (msg : string)
  | OSError (msg : string)
  | ImportError (msg : string)
  | InvalidGitRepositoryError (msg : string)
  | NoSuchPathError (msg : string)
  | GitCommandError (msg : string)
  | CalledProcessError (msg : string) (output : list Byte.byte)
  | OtherException (cls msg : string).

(** [str(e)] *)
Definition exn_str (e : exn) : string :=
  match e with
  | AttributeError m | ValueError m | UnicodeDecodeError m | OSError m
  | ImportError m | InvalidGitRepositoryError m | NoSuchPathError m
  | GitCommandError m | CalledProcessError m _ | OtherException _ m => m
  end.

(** [isinstance(e, ValueError)] *)
Definition is_ValueError (e : exn) : bool :=
  match e with
  | ValueError _ | UnicodeDecodeError _ => true
  | _ => false
  end.

(** A call either returns a value or raises. *)
Inductive outcome (A : Type) : Type :=
  | Ret (a : A)
  | Raise (e : exn).
Arguments Ret {A} a.
Arguments Raise {A} e.

(** Sequencing: the first exception raised ends the computation. *)
#[global] Instance outcome_bind : MBind outcome := fun A B k m =>
  match m with
  | Ret a => k a
  | Raise e => Raise e
  end.

#[global] Instance outcome_ret : MRet outcome := fun A a => Ret a.

(** ** Install roots ([module_versions], lines 112-118) *)

(** [path in roots] for the dictionary path -> name kept in insertion
    order *)
Definition root_name (path : string) (roots : list (string * string))
  : option string :=
  snd <$> find (fun r => String.eqb (fst r) path) roots.

(** One turn of the loop over [sysconfig.get_paths().items()]; an item is
    (name, path). *)
Definition add_root (roots : list (string * string)) (item : string * string)
  : list (string * string) :=
  match root_name (snd item) roots with
  | Some _ => roots
  | None => roots ++ [(snd item, fst item)]
  end.

Definition collect_roots (items : list (string * string))
  : list (string * string) :=
  foldl add_root [] items.

(** [sorted(..., key=lambda x: len(x[0]), reverse=True)]: descending and
    stable, entries of equal length keep their order. *)
Fixpoint insert_by_len (x : string * string) (l : list (string * string))
  : list (string * string) :=
  match l with
  | [] => [x]
  | y :: l' =>
      if Nat.ltb (String.length (fst x)) (String.length (fst y))
      then y :: insert_by_len x l'
      else x :: l
  end.

Definition sort_roots (roots : list (string * string))
  : list (string * string) :=
  foldr insert_by_len [] roots.

Definition build_roots (items : list (string * string))
  : list (string * string) :=
  sort_roots (collect_roots items).

(** [f"<{v}>"] *)
Definition token (v : string) : string := "<" ++ v ++ ">".

(** The loop of lines 73-74: every root is replaced, in the order of
    [roots], each time in the string left by the previous ones. *)
Definition normalize (roots : list (string * string)) (path : string)
  : string :=
  foldl (fun p r => replace (fst r) (token (snd r)) p) path roots.

(** ** Python values *)

(** The values that end up in the report without a type of their own
    here: strings, lists or tuples, and anything else (numbers, [None],
    objects), kept by its [repr]. *)
Inductive pyval : Type :=
  | PyStr (s : string)
  | PySeq (l : list pyval)
  | PyOther (repr : string).

(** ** Components ([version], lines 67-106) *)

(** What [version] looks at in a loaded module: [file_attr] is [None]
    when the module has no [__file__], [Some None] when [__file__] is
    [None]; [version_attr] is [None] when reading [__version__] raises
    [AttributeError], and otherwise the value read, of any type. *)
Record module : Type := Module_ {
  file_attr : option (option string);
  version_attr : option pyval
}.

(** The three containers [version] updates in place. *)
Record state : Type := State {
  versions : gmap string pyval;
  namespaces : gset string;
  paths : gset (string * string)
}.

Definition empty_state : state := State ∅ ∅ ∅.

(** Lines 68-77: the normalised path, if the module has one. *)
Definition module_path (roots : list (string * string)) (m : module)
  : option string :=
  match file_attr m with
  | Some (Some p) => Some (normalize roots p)
  | _ => None
  end.

(** [version(versions, name, module, roots, namespaces, paths, full)].
    Every branch of the second [try] returns and none of its calls can
    raise [AttributeError] on a string, so lines 103-106 are not reached
    and have no counterpart here. *)
Definition version (st : state) (name : string) (m : module)
    (roots : list (string * string)) (full : bool) : state :=
  let path := module_path roots m in
  let paths' :=
    match path with
    | Some p => if startswith p "/" then {[ (name, p) ]} ∪ paths st
                else paths st
    | None => paths st
    end in
  match version_attr m with
  | Some v => State (<[name := v]> (versions st)) (namespaces st) paths'
  | None =>
      match path with
      | None => State (versions st) ({[ name ]} ∪ namespaces st) paths'
      | Some p =>
          if startswith p "<stdlib>" then
            State (versions st) (namespaces st) paths'
          else if full then
            State (<[name := PyStr p]> (versions st)) (namespaces st) paths'
          else if negb (startswith p "<") then
            State (<[name := PyStr (path_join "..." (basename p))]>
                     (versions st))
                  (namespaces st) paths'
          else State (versions st) (namespaces st) paths'
      end
  end.

(** Order of [sorted(sys.modules.items())]: by name, names being unique. *)
Definition item_le (a b : string * module) : Prop := String.le (fst a) (fst b).

#[global] Instance item_le_dec : RelDecision item_le.
Proof. intros a b. unfold item_le. apply _. Defined.

Definition sorted_items (sys_modules : gmap string module)
  : list (string * module) :=
  merge_sort item_le (map_to_list sys_modules).

Definition dot : ascii := "."%char.

(** Body of the first loop (lines 124-126) *)
Definition pass1 (roots : list (string * string)) (full : bool)
    (st : state) (kv : string * module) : state :=
  if negb (has_char dot (fst kv)) then version st (fst kv) (snd kv) roots full
  else st.

(** Body of the second loop (lines 129-132) *)
Definition pass2 (roots : list (string * string)) (full : bool)
    (st : state) (kv : string * module) : state :=
  match split_on dot (fst kv) with
  | [b0; _] =>
      if decide (b0 ∈ namespaces st)
      then version st (fst kv) (snd kv) roots full
      else st
  | _ => st
  end.

(** Lines 112-132 of [module_versions]: the state before
    [check_for_git]. *)
Definition enumerate (get_paths : list (string * string))
    (sys_modules : gmap string module) (full : bool) : state :=
  let roots := build_roots get_paths in
  let items := sorted_items sys_modules in
  let st1 := foldl (pass1 roots full) empty_state items in
  foldl (pass2 roots full) st1 items.

(** ** Version-control probe ([lookup_git_repo], [check_for_git]) *)

(** What [check_for_git] reads from a GitPython [Repo]; each read may
    raise.  [index_diff] is the list of [a_path]s of [repo.index.diff(None)]. *)
Record repo : Type := Repo_ {
  head_commit_hexsha : outcome string;
  index_diff : outcome (list string);
  untracked_files : outcome (list string);
  remotes : outcome (list string)
}.

(** A value of the [versions] dictionary of [check_for_git]. *)
Inductive git_entry : Type :=
  | GitSummary (sha1 : string) (modified_files untracked_files : nat)
  | GitFull (path sha1 : string)
            (remotes modified_files untracked_files : list string).

(** [sorted(l)] on a list of strings *)
Definition sorted_strings (l : list string) : list string :=
  merge_sort String.le l.

(** The two dictionaries built in the [try] block of lines 39-59; keyword
    arguments are evaluated left to right. *)
Definition read_state (full : bool) (path : string) (r : repo)
  : outcome git_entry :=
  if negb full then
    sha ← head_commit_hexsha r;
    m ← index_diff r;
    u ← untracked_files r;
    Ret (GitSummary sha (length m) (length u))
  else
    sha ← head_commit_hexsha r;
    rs ← remotes r;
    m ← index_diff r;
    u ← untracked_files r;
    Ret (GitFull path sha rs (sorted_strings m) (sorted_strings u)).

(** [LOG.error(f"Error checking git repo {path}: {e}")] *)
Definition git_error_line (path : string) (e : exn) : string :=
  "Error checking git repo " ++ path ++ ": " ++ exn_str e.

Section VersionControl.

(** [Repo(path)]: the repository rooted at [path], or an exception. *)
Variable Repo : string -> outcome repo.

(** [lookup_git_repo(path)].  The [while] loop has no bound of its own:
    [fuel] counts its turns and [None] means the fuel ran out before
    the loop ended. *)
Fixpoint lookup_git_repo (fuel : nat) (path : string)
  : option (outcome (option repo)) :=
  match fuel with
  | O => None
  | S fuel' =>
      if String.eqb path "/" then Some (Ret None)
      else match Repo path with
           | Ret r => Some (Ret (Some r))
           | Raise (InvalidGitRepositoryError _) =>
               lookup_git_repo fuel' (dirname path)
           | Raise e => Some (Raise e)
           end
  end.

(** The loop of [check_for_git] over the remaining pairs, with the
    dictionary built so far and the lines logged so far. *)
Fixpoint check_loop (fuel : nat) (full : bool)
    (todo : list (string * string))
    (vs : gmap string git_entry) (log : list string)
  : option (outcome (gmap string git_entry * list string)) :=
  match todo with
  | [] => Some (Ret (vs, log))
  | (name, path) :: rest =>
      match lookup_git_repo fuel path with
      | None => None
      | Some (Raise e) => Some (Raise e)
      | Some (Ret None) => check_loop fuel full rest vs log
      | Some (Ret (Some r)) =>
          match read_state full path r with
          | Ret entry => check_loop fuel full rest (<[name := entry]> vs) log
          | Raise e =>
              if is_ValueError e
              then check_loop fuel full rest vs (log ++ [git_error_line path e])
              else Some (Raise e)
          end
      end
  end.

(** [check_for_git(paths, full)], the pairs in the order of iteration. *)
Definition check_for_git (fuel : nat) (paths : list (string * string))
    (full : bool)
  : option (outcome (gmap string git_entry * list string)) :=
  check_loop fuel full paths ∅ [].

(** [module_versions(full)]: the versions and the outcome of
    [check_for_git] on the collected pairs. *)
Definition module_versions (fuel : nat)
    (get_paths : list (string * string))
    (sys_modules : gmap string module) (full : bool)
  : gmap string pyval
    * option (outcome (gmap string git_entry * list string)) :=
  let st := enumerate get_paths sys_modules full in
  (versions st, check_for_git fuel (elements (paths st)) full).

End VersionControl.

(** ** Platform probe ([platform_info]) *)

(** The generator of [all_empty], on one element [v] of the sequence. *)
Fixpoint all_empty_item (v : pyval) : bool :=
  match v with
  | PyStr s => String.eqb s ""
  | PySeq l => forallb all_empty_item l
  | PyOther _ => false
  end.

(** [all_empty(x)] *)
Definition all_empty (x : list pyval) : bool := forallb all_empty_item x.

(** [isinstance(v, (list, tuple)) and all_empty(v)] *)
Definition dropped (v : pyval) : bool :=
  match v with
  | PySeq l => all_empty l
  | _ => false
  end.

(** The loop of lines 154-156 over [list(r.items())]. *)
Definition post_filter (r : gmap string pyval) : gmap string pyval :=
  foldl (fun acc kv => if dropped (snd kv) then delete (fst kv) acc else acc)
        r (map_to_list r).

Section Platform.

(** [dir(platform)] and the call [getattr(platform, p)()]. *)
Variable platform_dir : list string.
Variable platform_call : string -> outcome pyval.

(** The loop of lines 143-149. *)
Definition collect_platform : gmap string pyval :=
  foldl (fun r p =>
           if startswith p "_" then r
           else match platform_call p with
                | Ret v => <[p := v]> r
                | Raise _ => r
                end)
        ∅ platform_dir.

Definition platform_info : gmap string pyval :=
  post_filter collect_platform.

End Platform.

(** ** GPU probe ([gpu_info]) *)

Section Gpu.

(** A GPU object of nvsmi and the record [json.loads(gpu.to_json())]. *)
Variables (gpu gpu_record : Type).
Variable to_record : gpu -> gpu_record.

(** [bytes.decode("utf-8")] and [str.strip()]. *)
Variable decode_utf8 : list Byte.byte -> outcome string.
Variable strip : string -> string.

(** The nvsmi module once imported. *)
Record nvsmi : Type := Nvsmi {
  is_nvidia_smi_on_path : bool;
  get_gpus : outcome (list gpu)
}.

(** The value [gpu_info] returns: a string or a list of records. *)
Inductive gpus_value : Type :=
  | GpuText (s : string)
  | GpuRecords (l : list gpu_record).

(** [gpu_info()]; [import_nvsmi] is the outcome of [import nvsmi]. *)
Definition gpu_info (import_nvsmi : outcome nvsmi) : outcome gpus_value :=
  n ← import_nvsmi;
  if negb (is_nvidia_smi_on_path n) then Ret (GpuText "nvdia-smi not found")
  else match get_gpus n with
       | Ret gs => Ret (GpuRecords (map to_record gs))
       | Raise (CalledProcessError _ output) =>
           s ← decode_utf8 output;
           Ret (GpuText (strip s))
       | Raise e => Raise e
       end.

End Gpu.

(** ** Asset fingerprints ([path_md5], [assets_info]) *)

(** The fields of [os.stat(path)] that [assets_info] uses. *)
Record stat_result : Type := Stat {
  st_size : Z;
  st_atime : Z;
  st_mtime : Z;
  st_ctime : Z
}.

Section Assets.

(** The summary [peek] returns. *)
Variable peek_value : Type.

(** [os.stat(path)]; the chunks [f.read(1024 * 1024)] yields for the
    file, or the exception of [open] or [read]; MD5 of a byte string as
    a hexadecimal digest; [datetime.fromtimestamp(t).isoformat()]. *)
Variable os_stat : string -> outcome stat_result.
Variable read_chunks : string -> outcome (list (list Byte.byte)).
Variable md5_hexdigest : list Byte.byte -> string.
Variable isoformat : Z -> outcome string.

(** [from .checkpoint import peek]: the function, or the exception of
    the import. *)
Variable import_peek : outcome (string -> outcome peek_value).

(** A value of the [result] dictionary. *)
Inductive asset_value : Type :=
  | AssetError (text : string)
  | AssetRecord (size : Z) (atime mtime ctime md5 : string)
                (peek : option peek_value).

(** [path_md5(path)]: the digest of the chunks fed in order. *)
Definition path_md5 (path : string) : outcome string :=
  chunks ← read_chunks path;
  Ret (md5_hexdigest (concat chunks)).

(** The second [try] of the loop body: the [peek] entry, if any. *)
Definition try_peek (path : string) : option peek_value :=
  match import_peek with
  | Ret peek => match peek path with
                | Ret v => Some v
                | Raise _ => None
                end
  | Raise _ => None
  end.

(** Lines 194-200: the record of a file whose stat and digest are
    known. *)
Definition fingerprint (st : stat_result) (md5 : string)
  : outcome (option peek_value -> asset_value) :=
  a ← isoformat (st_atime st);
  m ← isoformat (st_mtime st);
  c ← isoformat (st_ctime st);
  Ret (AssetRecord (st_size st) a m c md5).

(** [assets_info]'s loop over the remaining paths. *)
Fixpoint assets_loop (todo : list string) (result : gmap string asset_value)
  : outcome (gmap string asset_value) :=
  match todo with
  | [] => Ret result
  | path :: rest =>
      match (st ← os_stat path; md5 ← path_md5 path; Ret (st, md5)) with
      | Raise e => assets_loop rest (<[path := AssetError (exn_str e)]> result)
      | Ret (st, md5) =>
          record ← fingerprint st md5;
          assets_loop rest (<[path := record (try_peek path)]> result)
      end
  end.

Definition assets_info (paths : list string)
  : outcome (gmap string asset_value) :=
  assets_loop paths ∅.

(** What one turn of the loop stores under [path], or the exception
    that leaves the loop. *)
Definition asset_entry (path : string) : outcome asset_value :=
  match (st ← os_stat path; md5 ← path_md5 path; Ret (st, md5)) with
  | Raise e => Ret (AssetError (exn_str e))
  | Ret (st, md5) =>
      record ← fingerprint st md5;
      Ret (record (try_peek path))
  end.

End Assets.

(** ** The report ([gather_provenance_info]) *)

(** What the function reads from [sys]: [sys.executable], [sys.argv],
    [sys.path] and the three numbers of [sys.version_info]. *)
Record interpreter : Type := Interpreter {
  sys_executable : string;
  sys_argv : list string;
  sys_path : list string;
  sys_version_info : nat * nat * nat
}.

(** The f-string of the [python] entry. *)
Definition python_version (sys : interpreter) : string :=
  let '(major, minor, micro) := sys_version_info sys in
  pretty major ++ "." ++ pretty minor ++ "." ++ pretty micro.

Section Report.

(** The collaborators of the functions called. *)
Variables (gpu gpu_record peek_value : Type).
Variable Repo : string -> outcome repo.
Variable get_paths : list (string * string).
Variable sys_modules : gmap string module.
Variable platform_dir : list string.
Variable platform_call : string -> outcome pyval.
Variable to_record : gpu -> gpu_record.
Variable decode_utf8 : list Byte.byte -> outcome string.
Variable strip : string -> string.
Variable import_nvsmi : outcome (nvsmi gpu).
Variable os_stat : string -> outcome stat_result.
Variable read_chunks : string -> outcome (list (list Byte.byte)).
Variable md5_hexdigest : list Byte.byte -> string.
Variable isoformat : Z -> outcome string.
Variable import_peek : outcome (string -> outcome peek_value).

(** The interpreter and [datetime.datetime.utcnow().isoformat()]. *)
Variable sys : interpreter.
Variable utcnow_isoformat : string.

(** A value of the dictionary returned. *)
Inductive report_value : Type :=
  | RText (s : string)
  | RList (l : list string)
  | RPaths (l : list (string * string))
  | RVersions (m : gmap string pyval)
  | RGit (m : gmap string git_entry)
  | RPlatform (m : gmap string pyval)
  | RGpus (g : gpus_value gpu_record)
  | RAssets (m : gmap string (asset_value peek_value)).

(** [gather_provenance_info(assets, full)]: the dictionary and the lines
    logged by [check_for_git].  The probes are taken as they are modelled
    above, returning or raising: a subprocess or a file read that never
    returns, and a module whose attributes raise when read, are not
    described. *)
Definition gather_provenance_info (fuel : nat) (assets : list string)
    (full : bool)
  : option (outcome (gmap string report_value * list string)) :=
  let executable := sys_executable sys in
  let '(versions, git) :=
    module_versions Repo fuel get_paths sys_modules full in
  match git with
  | None => None
  | Some (Raise e) => Some (Raise e)
  | Some (Ret (git_versions, log)) =>
      if negb full then
        Some (Ret (list_to_map
                     [("time", RText utcnow_isoformat);
                      ("python", RText (python_version sys));
                      ("module_versions", RVersions versions);
                      ("git_versions", RGit git_versions)],
                   log))
      else
        let platform := platform_info platform_dir platform_call in
        Some (gpus ← gpu_info gpu gpu_record to_record decode_utf8 strip
                       import_nvsmi;
              assets' ← assets_info peek_value os_stat read_chunks
                          md5_hexdigest isoformat import_peek assets;
              Ret (list_to_map
                     [("time", RText utcnow_isoformat);
                      ("executable", RText executable);
                      ("args", RList (sys_argv sys));
                      ("python_path", RList (sys_path sys));
                      ("config_paths", RPaths get_paths);
                      ("module_versions", RVersions versions);
                      ("git_versions", RGit git_versions);
                      ("platform", RPlatform platform);
                      ("gpus", RGpus gpus);
                      ("assets", RAssets assets')],
                   log))
  end.

End Report.

(** * Configuration store (config.py) *)

(** ** Dictionary objects *)

(** A value held in a configuration: a table (a [dict]) or anything
    else. *)
Inductive toml : Type :=
  | Leaf (v : pyval)
  | Table (t : gmap string toml).

(** The classes of the dictionaries the module handles. *)
Inductive pyclass : Type :=
  | dict_class
  | DotDict_class.

(** A dictionary object: its class and its items.  A table held as an
    item is given by its content; the module never changes a dictionary
    through an item, [DotDict.__getitem__] copies it first. *)
Record object : Type := Object {
  class_of : pyclass;
  dict_items : gmap string toml
}.

(** The objects allocated so far; an object is known by its position. *)
Abbreviation loc := nat.
Abbreviation heap := (list object).

(** What [obj[key]] and [obj.attr] evaluate to: a value that is not a
    dictionary, a dictionary object, or what the normal attribute lookup
    finds on the class (a method such as [keys]). *)
Inductive attr_value : Type :=
  | AValue (v : pyval)
  | AObject (l : loc)
  | AClassAttribute (name : string).

(** [KeyError(key)] *)
Definition KeyError (key : string) : exn :=
  OtherException "KeyError" ("'" ++ key ++ "'").

Definition is_KeyError (e : exn) : bool :=
  match e with
  | OtherException cls _ => String.eqb cls "KeyError"
  | _ => false
  end.

(** The outcome of an operation on a reference to no object; no such
    reference can be obtained from the module. *)
Definition no_object {A : Type} : outcome A :=
  Raise (OtherException "SystemError" "no such object").

(** [DotDict(item)]: a new object with the items of [item]. *)
Definition DotDict (t : gmap string toml) (h : heap) : loc * heap :=
  (length h, (h ++ [Object DotDict_class t])%list).

(** [dict.__getitem__(self, key)] *)
Definition dict_getitem (h : heap) (self : loc) (key : string)
  : outcome toml :=
  match h !! self with
  | Some o => match dict_items o !! key with
              | Some item => Ret item
              | None => Raise (KeyError key)
              end
  | None => no_object
  end.

(** [DotDict.__getitem__(self, key)] *)
Definition DotDict_getitem (h : heap) (self : loc) (key : string)
  : outcome (attr_value * heap) :=
  item ← dict_getitem h self key;
  match item with
  | Table t => let '(l, h') := DotDict t h in Ret (AObject l, h')
  | Leaf v => Ret (AValue v, h)
  end.

(** [DotDict.__getattr__(self, attr)] *)
Definition DotDict_getattr (h : heap) (self : loc) (attr : string)
  : outcome (attr_value * heap) :=
  match DotDict_getitem h self attr with
  | Ret r => Ret r
  | Raise e => if is_KeyError e then Raise (AttributeError attr) else Raise e
  end.

(** [DotDict.__setattr__(self, attr, value)], that is
    [dict.__setitem__(self, attr, value)]. *)
Definition DotDict_setattr (h : heap) (self : loc) (attr : string)
    (value : toml) : heap :=
  match h !! self with
  | Some o =>
      <[self := Object (class_of o) (<[attr := value]> (dict_items o))]> h
  | None => h
  end.

Section Attributes.

(** The names the normal attribute lookup finds on an instance of a
    class: the attributes of the class and of its bases. *)
Variable class_attribute : pyclass -> string -> bool.

(** The expression [obj.attr]: [__getattr__] is called only when the
    normal lookup fails, and [dict] has none. *)
Definition getattr (h : heap) (obj : loc) (attr : string)
  : outcome (attr_value * heap) :=
  match h !! obj with
  | Some o =>
      if class_attribute (class_of o) attr then Ret (AClassAttribute attr, h)
      else match class_of o with
           | DotDict_class => DotDict_getattr h obj attr
           | dict_class =>
               Raise (AttributeError
                        ("'dict' object has no attribute '" ++ attr ++ "'"))
           end
  | None => no_object
  end.

End Attributes.

(** ** The cached configuration ([load_config], [save_config]) *)

(** The state the module works on: the objects, the global [CONFIG]
    ([None] or a reference) and the files; a file is given by what
    opening and reading it gives. *)
Record process : Type := Process {
  objects : heap;
  CONFIG : option loc;
  files : gmap string (outcome (list Byte.byte))
}.

Section Config.

(** [os.path.expanduser("~/.anemoi.toml")]; [tomllib.load] on the
    content of a file; the exception of [open(conf, "w")], if any; the
    name of the module imported as [tomllib] ("tomllib" or "tomli"). *)
Variable conf : string.
Variable toml_load : list Byte.byte -> outcome (gmap string toml).
Variable open_w : string -> outcome unit.
Variable tomllib_name : string.

(** The assignment of a new dictionary to [CONFIG], followed by
    [return DotDict(CONFIG)]. *)
Definition install (t : gmap string toml) (s : process)
  : outcome loc * process :=
  let c := length (objects s) in
  let '(d, h) := DotDict t (objects s ++ [Object dict_class t])%list in
  (Ret d, Process h (Some c) (files s)).

(** [load_config()]: the result and the state it leaves. *)
Definition load_config (s : process) : outcome loc * process :=
  match CONFIG s with
  | Some c => (Ret c, s)
  | None =>
      match files s !! conf with
      | Some content =>
          match content ≫= toml_load with
          | Ret t => install t s
          | Raise e => (Raise e, s)
          end
      | None => install ∅ s
      end
  end.

(** [save_config()]: the file is opened for writing, which empties it,
    and the lookup of [dump] in the module fails: neither [tomllib] nor
    [tomli] has it. *)
Definition save_config (s : process) : outcome unit * process :=
  match open_w conf with
  | Ret _ =>
      (Raise (AttributeError
                ("module '" ++ tomllib_name ++ "' has no attribute 'dump'")),
       Process (objects s) (CONFIG s) (<[conf := Ret []]> (files s)))
  | Raise e => (Raise e, s)
  end.

End Config.

(** ** Notions used in the statements *)


(** The entry [version] writes for a module, if it writes one. *)
Definition emitted (roots : list (string * string)) (full : bool) (m : module)
  : option pyval :=
  match version_attr m with
  | Some v => Some v
  | None =>
      match module_path roots m with
      | None => None
      | Some p =>
          if startswith p "<stdlib>" then None
          else if full then Some (PyStr p)
          else if startswith p "<" then None
          else Some (PyStr (path_join "..." (basename p)))
      end
  end.

(** The module is recorded as a namespace: no version and no path. *)
Definition is_namespace (roots : list (string * string)) (m : module) : bool :=
  match version_attr m, module_path roots m with
  | None, None => true
  | _, _ => false
  end.

(** The pair [version] adds to [paths], if it adds one. *)
Definition candidate (roots : list (string * string)) (name : string)
    (m : module) : option (string * string) :=
  match module_path roots m with
  | Some p => if startswith p "/" then Some (name, p) else None
  | None => None
  end.

(** A loop body that calls [version] on the items a guard selects. *)
Definition guarded (g : state -> string -> bool)
    (roots : list (string * string)) (full : bool)
    (st : state) (kv : string * module) : state :=
  if g st (fst kv) then version st (fst kv) (snd kv) roots full else st.

Definition top_level (_ : state) (k : string) : bool := negb (has_char dot k).

Definition second_level (st : state) (k : string) : bool :=
  match split_on dot k with
  | [b0; _] => bool_decide (b0 ∈ namespaces st)
  | _ => false
  end.

(** The names the two loops of [module_versions] hand to [version]:
    those without a dot, and those of two segments whose first segment is
    a loaded module recorded as a namespace. *)
Definition inspected (roots : list (string * string))
    (sys_modules : gmap string module) (k : string) : bool :=
  negb (has_char dot k)
  || match split_on dot k with
     | [b0; _] =>
         match sys_modules !! b0 with
         | Some m0 => is_namespace roots m0
         | None => false
         end
     | _ => false
     end.

(** A value made of empty strings only: the empty string, or a sequence
    of such values. *)
Inductive blank : pyval -> Prop :=
  | blank_str : blank (PyStr "")
  | blank_seq (l : list pyval) : Forall blank l -> blank (PySeq l).

(** Induction on values with the hypothesis for every element of a
    sequence. *)
Fixpoint pyval_nested_ind (P : pyval -> Prop)
    (Hstr : forall s, P (PyStr s))
    (Hseq : forall l, Forall P l -> P (PySeq l))
    (Hother : forall r, P (PyOther r))
    (v : pyval) : P v :=
  match v with
  | PyStr s => Hstr s
  | PySeq l =>
      Hseq l ((fix go (l : list pyval) : Forall P l :=
                 match l with
                 | [] => @List.Forall_nil _ P
                 | x :: l' =>
                     @List.Forall_cons _ P x l'
                       (pyval_nested_ind P Hstr Hseq Hother x) (go l')
                 end) l)
  | PyOther r => Hother r
  end.

(** [Repo(path)] raised [InvalidGitRepositoryError]: the case in which
    [lookup_git_repo] goes up one directory. *)
Definition not_a_repo (o : outcome repo) : bool :=
  match o with
  | Raise (InvalidGitRepositoryError _) => true
  | _ => false
  end.

(** The path after [k] turns of the loop of [lookup_git_repo]. *)
Definition ancestor (k : nat) (path : string) : string :=
  Nat.iter k dirname path.

(** A candidate pair is harmless when its ascent ends without an
    exception and, if a repository was found, its state can be read or
    the read raises a [ValueError]. *)
Definition harmless (Repo : string -> outcome repo) (fuel : nat)
    (full : bool) (pair : string * string) : bool :=
  match lookup_git_repo Repo fuel (snd pair) with
  | Some (Ret None) => true
  | Some (Ret (Some r)) =>
      match read_state full (snd pair) r with
      | Ret _ => true
      | Raise e => is_ValueError e
      end
  | _ => false
  end.

(** ** A host used in the examples *)

(** [sysconfig.get_paths().items()] of a system installation *)
Definition example_get_paths : list (string * string) :=
  [ ("stdlib", "/usr/lib/python3.11");
    ("platstdlib", "/usr/lib/python3.11");
    ("purelib", "/usr/lib/python3.11/site-packages");
    ("platlib", "/usr/lib/python3.11/site-packages");
    ("include", "/usr/include/python3.11");
    ("scripts", "/usr/bin");
    ("data", "/usr") ].

Definition json_module : module :=
  Module_ (Some (Some "/usr/lib/python3.11/json/__init__.py")) (Some (PyStr "2.0.9")).

Definition os_module : module :=
  Module_ (Some (Some "/usr/lib/python3.11/os.py")) None.

Definition six_module : module :=
  Module_ (Some (Some "/usr/lib/python3.11/site-packages/six.py")) None.

Definition foo_module : module :=
  Module_ (Some (Some "/opt/devwork/foo/mod.py")) None.

Definition devpkg_module : module :=
  Module_ (Some (Some "/opt/devwork/devpkg/__init__.py")) (Some (PyStr "0.3.1")).

(** [sys.modules] *)
Definition example_modules : gmap string module :=
  list_to_map
    [ ("json", json_module); ("os", os_module); ("six", six_module);
      ("foo", foo_module); ("devpkg", devpkg_module);
      ("earthkit", Module_ None None);
      ("earthkit.meteo",
       Module_ (Some (Some "/opt/devwork/earthkit/meteo/__init__.py")) None) ].

(** [sys.modules] of a host with a namespace package and a member of it
    that has a version attribute. *)
Definition utils_module : module :=
  Module_ (Some (Some "/opt/devwork/anemoi/utils/__init__.py"))
    (Some (PyStr "0.1.9")).

Definition family_modules : gmap string module :=
  list_to_map
    [ ("anemoi", Module_ None None); ("anemoi.utils", utils_module);
      ("os", os_module) ].


(** A host on which no directory is a repository. *)
Definition no_repo (path : string) : outcome repo :=
  Raise (InvalidGitRepositoryError path).

(** A repository without any commit: reading the head raises
    [ValueError]. *)
Definition unborn_repo : repo :=
  Repo_ (Raise (ValueError "Reference at 'refs/heads/main' does not exist"))
        (Ret []) (Ret []) (Ret []).

(** A repository whose index cannot be read: the git command fails. *)
Definition corrupt_repo : repo :=
  Repo_ (Ret "3f2a9c0e") (Raise (GitCommandError "index file corrupt"))
        (Ret []) (Ret []).

Definition clean_repo : repo :=
  Repo_ (Ret "9d1c77ab") (Ret ["b.py"; "a.py"]) (Ret ["notes.txt"])
        (Ret ["https://example.org/baz.git"]).

(** A host with three checkouts under /opt/devwork. *)
Definition example_Repo (path : string) : outcome repo :=
  if String.eqb path "/opt/devwork/foo" then Ret unborn_repo
  else if String.eqb path "/opt/devwork/bar" then Ret corrupt_repo
  else if String.eqb path "/opt/devwork/baz" then Ret clean_repo
  else Raise (InvalidGitRepositoryError path).

(** [dir(platform)] cut down to three queries, and their results on a
    Linux host. *)
Definition example_platform_dir : list string :=
  ["_syscmd_ver"; "mac_ver"; "processor"; "system"].

Definition example_platform_call (p : string) : outcome pyval :=
  if String.eqb p "mac_ver" then
    Ret (PySeq [PyStr ""; PySeq [PyStr ""; PyStr ""; PyStr ""]; PyStr ""])
  else if String.eqb p "processor" then Ret (PyStr "")
  else if String.eqb p "system" then Ret (PyStr "Linux")
  else Raise (OtherException "TypeError" "missing argument").

(** Decoding and stripping restricted to what the examples need: bytes
    are taken as characters and blanks are removed at both ends. *)
Definition example_decode (b : list Byte.byte) : outcome string :=
  Ret (string_of_list_byte b).

Fixpoint lstrip_blank (s : string) : string :=
  match s with
  | String c s' => if Ascii.is_space c then lstrip_blank s' else s
  | EmptyString => ""
  end.

Definition example_strip (s : string) : string :=
  String.rev (lstrip_blank (String.rev (lstrip_blank s))).

(** A host whose GPU query fails while its output is parsed. *)
Definition failing_nvsmi : nvsmi nat :=
  Nvsmi nat true
    (Raise (ValueError "could not convert string to float: '[N/A]'")).

(** A host with one file to fingerprint; the [peek] collaborator is not
    installed.  [example_md5] stands for the digest function. *)
Definition example_stat (path : string) : outcome stat_result :=
  if String.eqb path "/data/model.ckpt"
  then Ret (Stat 42 1700000000 1700000001 1700000002)
  else Raise (OSError ("[Errno 2] No such file or directory: " ++ path)).

Definition example_chunks (path : string) : outcome (list (list Byte.byte)) :=
  if String.eqb path "/data/model.ckpt"
  then Ret [list_byte_of_string "PK"; list_byte_of_string "data"]
  else Raise (OSError ("[Errno 2] No such file or directory: " ++ path)).

Definition example_md5 (b : list Byte.byte) : string :=
  "md5:" ++ string_of_list_byte b.

Definition example_isoformat (t : Z) : outcome string :=
  Ret "2023-11-14T22:13:20".

Definition example_import_peek : outcome (string -> outcome nat) :=
  Raise (ImportError "No module named 'anemoi.utils.checkpoint'").

(** A file whose modification time is beyond year 9999, and a clock
    conversion that refuses such times as [datetime.fromtimestamp] does. *)
Definition far_future_stat (path : string) : outcome stat_result :=
  Ret (Stat 42 1700000000 400000000000 1700000002).

Definition strict_isoformat (t : Z) : outcome string :=
  if Z.ltb 253402300799 t then Raise (ValueError "year is out of range")
  else Ret "2023-11-14T22:13:20".

(** An interpreter, and hosts without and with the nvsmi package; the
    second has no NVIDIA management interface on its search path. *)
Definition example_sys : interpreter :=
  Interpreter "/usr/bin/python3" ["train.py"; "--fast"]
    [""; "/usr/lib/python3.11"] (3, 11, 4).

Definition missing_nvsmi : outcome (nvsmi nat) :=
  Raise (ImportError "No module named 'nvsmi'").

Definition idle_nvsmi : outcome (nvsmi nat) := Ret (Nvsmi nat false (Ret [])).

(** A user whose configuration file names a dataset and a table of
    directories; [example_toml_load] stands for the parser on the two
    contents the examples use; [keys], [items] and the like are the
    attributes of the classes. *)
Definition example_conf : string := "/home/user/.anemoi.toml".

Definition example_table : gmap string toml :=
  <["name" := Leaf (PyStr "era5")]>
    (<["dirs" := Table (<["cache" := Leaf (PyStr "/tmp/cache")]> ∅)]> ∅).

Definition example_toml_load (content : list Byte.byte)
  : outcome (gmap string toml) :=
  match content with
  | [] => Ret ∅
  | _ => Ret example_table
  end.

Definition example_class_attribute (c : pyclass) (attr : string) : bool :=
  bool_decide (attr ∈ ["keys"; "items"; "values"; "get"; "update"; "copy"]).

Definition example_process : process :=
  Process [] None
    (<[example_conf := Ret (list_byte_of_string "name = 'era5'")]> ∅).

Definition example_open_w (path : string) : outcome unit := Ret tt.

(** The state after the first call of [load_config] in
    [example_process]. *)
Definition example_loaded : process :=
  Process [Object dict_class example_table;
           Object DotDict_class example_table]
    (Some 0) (files example_process).

(** * Properties *)

(** ** Strings *)

Lemma string_app_nil_l (s : string) : "" ++ s = s.
Proof. reflexivity. Qed.

Lemma string_app_cons (c : ascii) (a b : string) :
  String c a ++ b = String c (a ++ b).
Proof. reflexivity. Qed.

Lemma string_app_assoc (a b c : string) : (a ++ b) ++ c = a ++ (b ++ c).
Proof.
  induction a as [|x a IH]; [done|].
  by rewrite !string_app_cons, IH.
Qed.

Lemma string_length_app (a b : string) :
  String.length (a ++ b) = String.length a + String.length b.
Proof.
  induction a as [|x a IH]; [done|].
  rewrite string_app_cons. simpl. by rewrite IH.
Qed.

Lemma prefix_nil (s : string) : String.prefix "" s = true.
Proof. by destruct s. Qed.


Lemma prefix_split (a s : string) :
  String.prefix a s = true -> exists t, s = a ++ t.
Proof.
  revert s; induction a as [|c a IH]; intros s H.
  - by exists s.
  - destruct s as [|d s]; simpl in H; [done|].
    destruct (ascii_dec c d) as [->|]; [|done].
    destruct (IH _ H) as [t ->]. by exists t.
Qed.






Lemma occurs_empty (s : string) : occurs "" s = true.
Proof. by destruct s. Qed.

(** A root that occurs nowhere leaves the string as it is. *)
Lemma replace_absent (old new s : string) :
  occurs old s = false -> replace old new s = s.
Proof.
  destruct old as [|c o]; [by rewrite occurs_empty|].
  unfold replace. induction s as [|d s IH]; [done|].
  cbn [occurs replace_go]. intros [H1 H2]%orb_false_iff.
  rewrite H1. by rewrite IH.
Qed.

(** A root that starts with a slash is not found inside a text without
    slashes put in front of the string. *)
Lemma prefix_cons (c d : ascii) (a s : string) :
  String.prefix (String c a) (String d s)
  = if ascii_dec c d then String.prefix a s else false.
Proof. reflexivity. Qed.

Lemma startswith_slash_inv (s : string) :
  startswith s "/" = true -> exists s', s = String slash s'.
Proof.
  destruct s as [|c s]; [done|].
  unfold startswith. rewrite prefix_cons.
  destruct (ascii_dec "/" c) as [<-|]; [|done]. by exists s.
Qed.


(** ** The root table *)



Lemma normalize_absent (l : list (string * string)) (p : string) :
  Forall (fun r => occurs (fst r) p = false) l -> normalize l p = p.
Proof.
  induction 1 as [|r l Hr _ IH]; [done|].
  unfold normalize in *. simpl. by rewrite replace_absent.
Qed.


Lemma root_name_cons (p : string) (r : string * string)
    (l : list (string * string)) :
  root_name p (r :: l)
  = if String.eqb (fst r) p then Some (snd r) else root_name p l.
Proof. unfold root_name. simpl. by destruct (String.eqb (fst r) p). Qed.

Lemma root_name_app (p : string) (l1 l2 : list (string * string)) :
  root_name p (l1 ++ l2)
  = match root_name p l1 with
    | Some n => Some n
    | None => root_name p l2
    end.
Proof.
  induction l1 as [|r l1 IH]; [done|].
  rewrite <- app_comm_cons, !root_name_cons.
  by destruct (String.eqb (fst r) p).
Qed.

Lemma root_name_None (p : string) (l : list (string * string)) :
  root_name p l = None <-> p ∉ l.*1.
Proof.
  induction l as [|r l IHl].
  { split; [intros _; apply not_elem_of_nil | done]. }
  rewrite root_name_cons, fmap_cons, not_elem_of_cons.
  destruct (String.eqb_spec (fst r) p) as [->|Hne].
  - split; [done | by intros [? _]].
  - rewrite IHl. split; [by split | by intros [_ ?]].
Qed.

Lemma root_name_Some (p n : string) (l : list (string * string)) :
  NoDup l.*1 -> root_name p l = Some n <-> (p, n) ∈ l.
Proof.
  induction l as [|[q m] l IH]; intros Hnd.
  - split; [done | by intros ?%elem_of_nil].
  - rewrite fmap_cons, NoDup_cons in Hnd. destruct Hnd as [Hq Hnd].
    rewrite root_name_cons, elem_of_cons. simpl.
    destruct (String.eqb_spec q p) as [->|Hne].
    + split; [intros [= ->]; by left|]. intros [[= ->]|Hin]; [done|].
      destruct Hq. apply list_elem_of_fmap. by exists (p, n).
    + rewrite IH by done. split; [by right|].
      by intros [[= -> ->]|?].
Qed.

(** The name kept for a path is the one of its first registration. *)
Lemma foldl_add_root_name (p : string) (items acc : list (string * string)) :
  root_name p (foldl add_root acc items)
  = match root_name p acc with
    | Some n => Some n
    | None => fst <$> find (fun it => String.eqb (snd it) p) items
    end.
Proof.
  revert acc; induction items as [|[n q] items IH]; intros acc.
  - simpl. by destruct (root_name p acc).
  - cbn [foldl find]. rewrite IH. unfold add_root. cbn [fst snd].
    destruct (root_name q acc) as [m|] eqn:Eq.
    + destruct (String.eqb_spec q p) as [->|]; [by rewrite Eq | done].
    + rewrite root_name_app. destruct (root_name p acc) as [m|] eqn:Ep; [done|].
      rewrite root_name_cons. cbn [fst snd].
      by destruct (String.eqb q p).
Qed.

Lemma foldl_add_root_NoDup (items acc : list (string * string)) :
  NoDup acc.*1 -> NoDup (foldl add_root acc items).*1.
Proof.
  revert acc; induction items as [|[n q] items IH]; intros acc Hnd; [done|].
  cbn [foldl]. apply IH. unfold add_root. cbn [fst snd].
  destruct (root_name q acc) as [m|] eqn:Eq; [done|].
  rewrite fmap_app. apply NoDup_app. split_and!; [done| |].
  - intros x Hx [->|[]%elem_of_nil]%elem_of_cons.
    by apply root_name_None in Eq.
  - apply NoDup_singleton.
Qed.

Lemma collect_roots_name (p : string) (items : list (string * string)) :
  root_name p (collect_roots items)
  = fst <$> find (fun it => String.eqb (snd it) p) items.
Proof. unfold collect_roots. by rewrite foldl_add_root_name. Qed.

Lemma collect_roots_NoDup (items : list (string * string)) :
  NoDup (collect_roots items).*1.
Proof. apply foldl_add_root_NoDup. constructor. Qed.

Lemma insert_by_len_Permutation (x : string * string)
    (l : list (string * string)) :
  insert_by_len x l ≡ₚ x :: l.
Proof.
  induction l as [|y l IH]; [done|]. simpl.
  destruct (Nat.ltb _ _); [|done].
  rewrite IH. apply Permutation_swap.
Qed.


Lemma sort_roots_Permutation (l : list (string * string)) :
  sort_roots l ≡ₚ l.
Proof.
  induction l as [|x l IH]; [done|].
  unfold sort_roots in *. simpl. by rewrite insert_by_len_Permutation, IH.
Qed.


Lemma build_roots_NoDup (items : list (string * string)) :
  NoDup (build_roots items).*1.
Proof.
  unfold build_roots. rewrite sort_roots_Permutation.
  apply collect_roots_NoDup.
Qed.

(** The sorted table keeps, for each path, the first name registered
    for it. *)
Lemma build_roots_name (p : string) (items : list (string * string)) :
  root_name p (build_roots items)
  = fst <$> find (fun it => String.eqb (snd it) p) items.
Proof.
  rewrite <- collect_roots_name.
  pose proof (build_roots_NoDup items) as Hb.
  pose proof (collect_roots_NoDup items) as Hc.
  destruct (root_name p (collect_roots items)) as [n|] eqn:E.
  - apply root_name_Some; [done|]. apply root_name_Some in E; [|done].
    unfold build_roots. by rewrite sort_roots_Permutation.
  - apply root_name_None. apply root_name_None in E.
    unfold build_roots. by rewrite sort_roots_Permutation.
Qed.

Lemma build_roots_elem (p n : string) (items : list (string * string)) :
  (p, n) ∈ build_roots items ->
  find (fun it => String.eqb (snd it) p) items = Some (n, p).
Proof.
  intros Hin. apply root_name_Some in Hin; [|apply build_roots_NoDup].
  rewrite build_roots_name in Hin.
  destruct (find _ items) as [[n' p']|] eqn:E; [|done].
  simpl in Hin. injection Hin as ->.
  apply find_some in E as [_ E]. simpl in E.
  by apply String.eqb_eq in E as ->.
Qed.


Lemma build_roots_registered (r : string * string)
    (items : list (string * string)) :
  r ∈ build_roots items -> In (snd r, fst r) items.
Proof.
  destruct r as [p n]. intros H%build_roots_elem.
  by apply find_some in H as [H _].
Qed.


(** ** One call of [version] *)

Lemma version_versions (st : state) (name : string) (m : module)
    (roots : list (string * string)) (full : bool) :
  versions (version st name m roots full)
  = match emitted roots full m with
    | Some v => <[name := v]> (versions st)
    | None => versions st
    end.
Proof.
  unfold version, emitted.
  destruct (version_attr m); [done|].
  destruct (module_path roots m) as [p|]; [|done].
  destruct (startswith p "<stdlib>"); [done|].
  destruct full; [done|].
  by destruct (startswith p "<").
Qed.

Lemma version_namespaces (st : state) (name : string) (m : module)
    (roots : list (string * string)) (full : bool) :
  namespaces (version st name m roots full)
  = if is_namespace roots m then {[ name ]} ∪ namespaces st
    else namespaces st.
Proof.
  unfold version, is_namespace.
  destruct (version_attr m); [by destruct (module_path roots m)|].
  destruct (module_path roots m) as [p|]; [|done].
  destruct (startswith p "<stdlib>"); [done|].
  destruct full; [done|].
  by destruct (startswith p "<").
Qed.

Lemma version_paths (st : state) (name : string) (m : module)
    (roots : list (string * string)) (full : bool) :
  paths (version st name m roots full)
  = match candidate roots name m with
    | Some c => {[ c ]} ∪ paths st
    | None => paths st
    end.
Proof.
  unfold version, candidate.
  destruct (module_path roots m) as [p|].
  - destruct (startswith p "/"), (version_attr m); try done;
      destruct (startswith p "<stdlib>"); try done;
      destruct full; try done; by destruct (startswith p "<").
  - by destruct (version_attr m).
Qed.

(** ** The two loops of the enumerator *)

Lemma pass1_guarded (roots : list (string * string)) (full : bool) :
  pass1 roots full = guarded top_level roots full.
Proof. reflexivity. Qed.

Lemma pass2_guarded (roots : list (string * string)) (full : bool)
    (st : state) (kv : string * module) :
  pass2 roots full st kv = guarded second_level roots full st kv.
Proof.
  unfold pass2, guarded, second_level.
  destruct (split_on dot (fst kv)) as [|b0 [|b1 [|b2 l]]]; try done.
  destruct (decide (b0 ∈ namespaces st)) as [Hin|Hin].
  - by rewrite bool_decide_eq_true_2.
  - by rewrite bool_decide_eq_false_2.
Qed.

Lemma foldl_pass2_guarded (roots : list (string * string)) (full : bool)
    (items : list (string * module)) (st : state) :
  foldl (pass2 roots full) st items
  = foldl (guarded second_level roots full) st items.
Proof.
  revert st; induction items as [|kv items IHi]; intros st; [done|].
  simpl. by rewrite pass2_guarded, IHi.
Qed.

Lemma split_on_ne_nil (c : ascii) (s : string) : split_on c s <> [].
Proof.
  induction s as [|d s IHs]; [done|]. simpl.
  destruct (Ascii.eqb d c); [done|]. by destruct (split_on c s).
Qed.

Lemma split_on_pieces (c : ascii) (s : string) :
  Forall (fun x => has_char c x = false) (split_on c s).
Proof.
  induction s as [|d s IHs]; [by repeat constructor|]. simpl.
  destruct (Ascii.eqb d c) eqn:E; [by constructor|].
  destruct (split_on c s) as [|h t].
  - constructor; [|done]. simpl. by rewrite Ascii.eqb_sym, E.
  - inversion IHs as [|? ? Hh Ht]; subst. constructor; [|done].
    simpl. by rewrite Ascii.eqb_sym, E.
Qed.

Lemma split_on_absent (c : ascii) (s : string) :
  has_char c s = false -> split_on c s = [s].
Proof.
  induction s as [|d s IHs]; [done|]. simpl.
  rewrite Ascii.eqb_sym. intros [-> H]%orb_false_iff. by rewrite IHs.
Qed.

Lemma second_level_dotted (st : state) (k : string) :
  second_level st k = true -> has_char dot k = true.
Proof.
  unfold second_level. intros H.
  destruct (has_char dot k) eqn:E; [done|].
  by rewrite (split_on_absent _ _ E) in H.
Qed.

Section Guarded.

Context (g : state -> string -> bool).
Context (roots : list (string * string)) (full : bool).

(** The guard does not change while the loop runs. *)
Hypothesis g_stable : forall st kv k,
  g (guarded g roots full st kv) k = g st k.

Lemma guarded_fold_stable (items : list (string * module)) (st : state)
    (k : string) :
  g (foldl (guarded g roots full) st items) k = g st k.
Proof.
  revert st; induction items as [|kv items IHi]; intros st; [done|].
  simpl. by rewrite IHi, g_stable.
Qed.

Lemma guarded_fold_versions_other (items : list (string * module))
    (st : state) (k : string) :
  k ∉ items.*1 ->
  versions (foldl (guarded g roots full) st items) !! k = versions st !! k.
Proof.
  revert st; induction items as [|[k' m'] items IHi]; intros st Hk; [done|].
  rewrite fmap_cons, not_elem_of_cons in Hk. destruct Hk as [Hne Hk].
  simpl. rewrite IHi by done. unfold guarded. cbn [fst snd] in *.
  destruct (g st k'); [|done].
  rewrite version_versions. destruct (emitted roots full m'); [|done].
  by rewrite lookup_insert_ne.
Qed.

Lemma guarded_fold_versions (items : list (string * module)) (st : state)
    (k : string) (m : module) :
  NoDup items.*1 -> (k, m) ∈ items ->
  versions (foldl (guarded g roots full) st items) !! k
  = if g st k
    then match emitted roots full m with
         | Some v => Some v
         | None => versions st !! k
         end
    else versions st !! k.
Proof.
  revert st; induction items as [|[k' m'] items IHi]; intros st Hnd Hin.
  { by apply elem_of_nil in Hin. }
  rewrite fmap_cons, NoDup_cons in Hnd. destruct Hnd as [Hk' Hnd].
  apply elem_of_cons in Hin as [[= <- <-]|Hin]; simpl.
  - rewrite guarded_fold_versions_other by done.
    unfold guarded. cbn [fst snd].
    destruct (g st k); [|done]. rewrite version_versions.
    destruct (emitted roots full m); [|done]. by rewrite lookup_insert_eq.
  - assert (k <> k') as Hne.
    { intros ->. apply Hk', list_elem_of_fmap. by exists (k', m). }
    rewrite IHi, g_stable by done.
    assert (versions (guarded g roots full st (k', m')) !! k
            = versions st !! k) as ->; [|done].
    unfold guarded. cbn [fst snd]. destruct (g st k'); [|done].
    rewrite version_versions. destruct (emitted roots full m'); [|done].
    by rewrite lookup_insert_ne.
Qed.

Lemma guarded_fold_namespaces (items : list (string * module)) (st : state)
    (b : string) :
  b ∈ namespaces (foldl (guarded g roots full) st items)
  <-> b ∈ namespaces st
      \/ exists m, (b, m) ∈ items /\ g st b = true
                   /\ is_namespace roots m = true.
Proof.
  revert st; induction items as [|[k' m'] items IHi]; intros st.
  { simpl. split; [by left|]. intros [?|(m & []%elem_of_nil & _)]; done. }
  simpl. rewrite IHi, g_stable. unfold guarded at 1. cbn [fst snd].
  setoid_rewrite elem_of_cons.
  destruct (g st k') eqn:Eg.
  - rewrite version_namespaces.
    destruct (is_namespace roots m') eqn:En.
    + rewrite elem_of_union, elem_of_singleton. split.
      * intros [[->|?]|(m & ? & ? & ?)]; eauto 10.
      * intros [?|(m & [[= -> ->]|?] & ? & ?)]; eauto 10.
    + split.
      * intros [?|(m & ? & ? & ?)]; eauto 10.
      * intros [?|(m & [[= -> ->]|?] & ? & ?)]; eauto 10. congruence.
  - split.
    + intros [?|(m & ? & ? & ?)]; eauto 10.
    + intros [?|(m & [[= -> ->]|?] & ? & ?)]; eauto 10. congruence.
Qed.

Lemma guarded_fold_paths (items : list (string * module)) (st : state)
    (c : string * string) :
  c ∈ paths (foldl (guarded g roots full) st items)
  <-> c ∈ paths st
      \/ exists k m, (k, m) ∈ items /\ g st k = true
                     /\ candidate roots k m = Some c.
Proof.
  revert st; induction items as [|[k' m'] items IHi]; intros st.
  { simpl. split; [by left|]. intros [?|(k & m & []%elem_of_nil & _)]; done. }
  simpl. rewrite IHi. setoid_rewrite g_stable.
  unfold guarded at 1. cbn [fst snd].
  setoid_rewrite elem_of_cons.
  destruct (g st k') eqn:Eg.
  - rewrite version_paths.
    destruct (candidate roots k' m') as [c'|] eqn:Ec.
    + rewrite elem_of_union, elem_of_singleton. split.
      * intros [[->|?]|(k & m & ? & ? & ?)]; eauto 10.
      * intros [?|(k & m & [[= -> ->]|?] & ? & ?)]; eauto 10.
        left; left; congruence.
    + split.
      * intros [?|(k & m & ? & ? & ?)]; eauto 10.
      * intros [?|(k & m & [[= -> ->]|?] & ? & ?)]; eauto 10. congruence.
  - split.
    + intros [?|(k & m & ? & ? & ?)]; eauto 10.
    + intros [?|(k & m & [[= -> ->]|?] & ? & ?)]; eauto 10. congruence.
Qed.

End Guarded.

Lemma top_level_stable (roots : list (string * string)) (full : bool)
    (st : state) (kv : string * module) (k : string) :
  top_level (guarded top_level roots full st kv) k = top_level st k.
Proof. reflexivity. Qed.

Lemma second_level_stable (roots : list (string * string)) (full : bool)
    (st : state) (kv : string * module) (k : string) :
  second_level (guarded second_level roots full st kv) k = second_level st k.
Proof.
  unfold guarded. destruct (second_level st (fst kv)) eqn:Ekv; [|done].
  apply second_level_dotted in Ekv.
  unfold second_level. pose proof (split_on_pieces dot k) as Hp.
  destruct (split_on dot k) as [|b0 [|b1 [|b2 l]]]; try done.
  apply Forall_cons in Hp as [Hb0 _].
  apply bool_decide_ext. rewrite version_namespaces.
  destruct (is_namespace roots (snd kv)); [|done].
  rewrite elem_of_union, elem_of_singleton. split; [|by right].
  intros [->|?]; [congruence | done].
Qed.

Lemma sorted_items_elem (sys_modules : gmap string module)
    (k : string) (m : module) :
  (k, m) ∈ sorted_items sys_modules <-> sys_modules !! k = Some m.
Proof.
  unfold sorted_items. rewrite merge_sort_Permutation.
  apply elem_of_map_to_list.
Qed.

Lemma sorted_items_NoDup (sys_modules : gmap string module) :
  NoDup (sorted_items sys_modules).*1.
Proof.
  unfold sorted_items. rewrite merge_sort_Permutation.
  apply NoDup_fst_map_to_list.
Qed.

Lemma sorted_items_absent (sys_modules : gmap string module) (k : string) :
  sys_modules !! k = None -> k ∉ (sorted_items sys_modules).*1.
Proof.
  intros Hk [[k' m] [-> Hin]]%list_elem_of_fmap.
  apply sorted_items_elem in Hin. simpl in *. congruence.
Qed.

(** After the first loop the recorded namespaces decide the guard of the
    second. *)
Lemma second_level_after_pass1 (roots : list (string * string)) (full : bool)
    (sys_modules : gmap string module) (k : string) :
  second_level
    (foldl (pass1 roots full) empty_state (sorted_items sys_modules)) k
  = match split_on dot k with
    | [b0; _] =>
        match sys_modules !! b0 with
        | Some m0 => is_namespace roots m0
        | None => false
        end
    | _ => false
    end.
Proof.
  rewrite pass1_guarded. unfold second_level.
  pose proof (split_on_pieces dot k) as Hp.
  destruct (split_on dot k) as [|b0 [|b1 [|b2 l]]]; try done.
  apply Forall_cons in Hp as [Hb0 _].
  destruct (sys_modules !! b0) as [m0|] eqn:E0.
  - destruct (is_namespace roots m0) eqn:En.
    + apply bool_decide_eq_true_2.
      apply guarded_fold_namespaces; [apply top_level_stable|].
      right. exists m0. split_and!; [by apply sorted_items_elem| |done].
      unfold top_level. by rewrite Hb0.
    + apply bool_decide_eq_false_2.
      intros H. apply guarded_fold_namespaces in H; [|apply top_level_stable].
      destruct H as [H|(m & Hm%sorted_items_elem & _ & Hn)]; [set_solver|].
      congruence.
  - apply bool_decide_eq_false_2.
    intros H. apply guarded_fold_namespaces in H; [|apply top_level_stable].
    destruct H as [H|(m & Hm%sorted_items_elem & _ & Hn)]; [set_solver|].
    congruence.
Qed.

Lemma inspected_split (roots : list (string * string)) (full : bool)
    (sys_modules : gmap string module) (k : string) :
  inspected roots sys_modules k
  = top_level empty_state k
    || second_level
         (foldl (pass1 roots full) empty_state (sorted_items sys_modules)) k.
Proof. by rewrite second_level_after_pass1. Qed.

(** The entries of [versions] when the two loops are over. *)
Lemma enumerate_versions (get_paths : list (string * string))
    (sys_modules : gmap string module) (full : bool) (k : string) :
  versions (enumerate get_paths sys_modules full) !! k
  = match sys_modules !! k with
    | Some m =>
        if inspected (build_roots get_paths) sys_modules k
        then emitted (build_roots get_paths) full m
        else None
    | None => None
    end.
Proof.
  unfold enumerate. set (roots := build_roots get_paths).
  set (items := sorted_items sys_modules).
  rewrite foldl_pass2_guarded.
  destruct (sys_modules !! k) as [m|] eqn:Ek.
  - rewrite (inspected_split roots full). fold items.
    rewrite pass1_guarded.
    rewrite (guarded_fold_versions _ _ _ (second_level_stable roots full)
               items _ k m);
      [|apply sorted_items_NoDup|by apply sorted_items_elem].
    rewrite (guarded_fold_versions _ _ _ (top_level_stable roots full)
               items _ k m);
      [|apply sorted_items_NoDup|by apply sorted_items_elem].
    assert (versions empty_state !! k = None) as -> by apply lookup_empty.
    destruct (second_level _ k) eqn:E2.
    + rewrite orb_true_r.
      apply second_level_dotted in E2. unfold top_level. rewrite E2. simpl.
      by destruct (emitted roots full m).
    + rewrite orb_false_r. destruct (top_level empty_state k); [|done].
      by destruct (emitted roots full m).
  - rewrite guarded_fold_versions_other by by apply sorted_items_absent.
    rewrite pass1_guarded.
    rewrite guarded_fold_versions_other by by apply sorted_items_absent.
    apply lookup_empty.
Qed.

(** The pairs of [paths] when the two loops are over. *)
Lemma enumerate_paths (get_paths : list (string * string))
    (sys_modules : gmap string module) (full : bool) (c : string * string) :
  c ∈ paths (enumerate get_paths sys_modules full)
  <-> exists k m, sys_modules !! k = Some m
                  /\ inspected (build_roots get_paths) sys_modules k = true
                  /\ candidate (build_roots get_paths) k m = Some c.
Proof.
  unfold enumerate. set (roots := build_roots get_paths).
  set (items := sorted_items sys_modules).
  rewrite foldl_pass2_guarded.
  rewrite guarded_fold_paths by apply second_level_stable.
  rewrite pass1_guarded at 1.
  rewrite guarded_fold_paths by apply top_level_stable.
  setoid_rewrite (inspected_split roots full).
  setoid_rewrite orb_true_iff.
  split.
  - intros [[[]%elem_of_empty|(k & m & Hin & Hg & Hc)]
           |(k & m & Hin & Hg & Hc)];
      exists k, m; (split_and!; [by apply sorted_items_elem| |done]); auto.
  - intros (k & m & Hin%sorted_items_elem & [Hg|Hg] & Hc).
    + left. right. eauto.
    + right. eauto.
Qed.

Lemma basename_no_slash (p : string) : has_char slash (basename p) = false.
Proof.
  induction p as [|c p IHp]; [done|]. cbn [basename].
  destruct (has_char slash p) eqn:E; [done|].
  destruct (Ascii.eqb c slash) eqn:Ec; [done|].
  cbn [has_char]. by rewrite Ascii.eqb_sym, Ec, E.
Qed.

Lemma no_slash_not_absolute (s : string) :
  has_char slash s = false -> startswith s "/" = false.
Proof.
  intros H. destruct (startswith s "/") eqn:E; [|done].
  apply startswith_slash_inv in E as [s' ->].
  cbn [has_char] in H. by rewrite Ascii.eqb_refl in H.
Qed.

(** [os.path.join("...", os.path.basename(path))] *)
Lemma join_dots_basename (p : string) :
  path_join "..." (basename p) = ".../" ++ basename p.
Proof.
  unfold path_join.
  by rewrite (no_slash_not_absolute _ (basename_no_slash p)).
Qed.

Lemma module_versions_fst (Repo : string -> outcome repo) (fuel : nat)
    (get_paths : list (string * string)) (sys_modules : gmap string module)
    (full : bool) :
  fst (module_versions Repo fuel get_paths sys_modules full)
  = versions (enumerate get_paths sys_modules full).
Proof. reflexivity. Qed.

(** A name of two segments whose first segment is a loaded module
    without version and without file is handed to [version] by the
    second loop. *)
Lemma inspected_member (roots : list (string * string))
    (sys_modules : gmap string module) (k b0 b1 : string) (m0 : module) :
  split_on dot k = [b0; b1] ->
  sys_modules !! b0 = Some m0 ->
  version_attr m0 = None ->
  file_attr m0 = None \/ file_attr m0 = Some None ->
  inspected roots sys_modules k = true.
Proof.
  intros Hsplit Hb0 Hv0 Hf0. unfold inspected.
  rewrite Hsplit, Hb0. unfold is_namespace, module_path. rewrite Hv0.
  destruct Hf0 as [-> | ->]; apply orb_true_r.
Qed.

(** ** Claims about the enumerator *)

(** C1.  A loaded module with a version attribute: whatever [version]
    writes for it is that attribute, in both modes and whatever the roots
    are.  In [module_versions] its name has an entry exactly when one of
    the two loops hands it to [version], and the entry is the attribute:
    so it is for every name without a dot, and for every name of two
    segments whose first segment is a loaded module with neither a
    version attribute nor a file. *)
Theorem version_attribute_emitted_exactly
    (Repo : string -> outcome repo) (fuel : nat)
    (get_paths : list (string * string)) (sys_modules : gmap string module)
    (full : bool) (k : string) (m : module) (v : pyval)
    (Hk : sys_modules !! k = Some m)
    (Hv : version_attr m = Some v) :
  (forall st roots,
      versions (version st k m roots full) = <[k := v]> (versions st))
  /\ fst (module_versions Repo fuel get_paths sys_modules full) !! k
     = (if inspected (build_roots get_paths) sys_modules k
        then Some v else None)
  /\ (has_char dot k = false ->
      fst (module_versions Repo fuel get_paths sys_modules full) !! k
      = Some v)
  /\ (forall b0 b1 m0,
        split_on dot k = [b0; b1] ->
        sys_modules !! b0 = Some m0 ->
        version_attr m0 = None ->
        file_attr m0 = None \/ file_attr m0 = Some None ->
        fst (module_versions Repo fuel get_paths sys_modules full) !! k
        = Some v)
  /\ (forall w,
        fst (module_versions Repo fuel get_paths sys_modules full) !! k
        = Some w -> w = v).
Proof.
  assert (fst (module_versions Repo fuel get_paths sys_modules full) !! k
          = (if inspected (build_roots get_paths) sys_modules k
             then Some v else None)) as Hentry.
  { rewrite module_versions_fst, enumerate_versions, Hk.
    unfold emitted. by rewrite Hv. }
  split_and!.
  - intros st roots. unfold version. by rewrite Hv.
  - exact Hentry.
  - intros Hdot. rewrite Hentry. unfold inspected. by rewrite Hdot.
  - intros b0 b1 m0 Hsplit Hb0 Hv0 Hf0.
    rewrite Hentry, (inspected_member _ _ _ b0 b1 m0); done.
  - intros w. rewrite Hentry. destruct (inspected _ _ _); congruence.
Qed.

(** C3, as the code has it.  A module without a version attribute whose
    normalised path does not start with the stdlib token: in FULL mode the
    normalised path is written as it is; in SUMMARY mode ".../" followed by
    the base name is written when the normalised path does not start with
    "<", and nothing is written when it does. *)
Theorem path_only_component_value
    (get_paths : list (string * string)) (sys_modules : gmap string module)
    (k : string) (m : module) (p : string)
    (Hk : sys_modules !! k = Some m)
    (Hv : version_attr m = None)
    (Hp : module_path (build_roots get_paths) m = Some p)
    (Hstd : startswith p "<stdlib>" = false) :
  (forall st,
      versions (version st k m (build_roots get_paths) true)
      = <[k := PyStr p]> (versions st))
  /\ (forall st,
        versions (version st k m (build_roots get_paths) false)
        = if startswith p "<" then versions st
          else <[k := PyStr (".../" ++ basename p)]> (versions st))
  /\ (inspected (build_roots get_paths) sys_modules k = true ->
      versions (enumerate get_paths sys_modules true) !! k = Some (PyStr p)
      /\ versions (enumerate get_paths sys_modules false) !! k
         = if startswith p "<" then None
           else Some (PyStr (".../" ++ basename p))).
Proof.
  split_and!.
  - intros st. unfold version. by rewrite Hv, Hp, Hstd.
  - intros st. unfold version. rewrite Hv, Hp, Hstd, join_dots_basename.
    by destruct (startswith p "<").
  - intros Hi. rewrite !enumerate_versions, Hk, Hi.
    unfold emitted. rewrite Hv, Hp, Hstd, join_dots_basename.
    by destruct (startswith p "<").
Qed.

(** C4, as the code has it.  [version] adds the pair of the name and the
    normalised path exactly when the module has a path whose normalised
    form starts with "/", before it looks at the version attribute; the
    pairs collected by [module_versions] are those of the inspected
    modules. *)
Theorem candidate_pairs_collected :
  (forall st name m roots full,
      paths (version st name m roots full)
      = match module_path roots m with
        | Some p => if startswith p "/" then {[ (name, p) ]} ∪ paths st
                    else paths st
        | None => paths st
        end)
  /\ (forall get_paths sys_modules full name p,
        (name, p) ∈ paths (enumerate get_paths sys_modules full)
        <-> exists m, sys_modules !! name = Some m
                      /\ inspected (build_roots get_paths) sys_modules name
                         = true
                      /\ module_path (build_roots get_paths) m = Some p
                      /\ startswith p "/" = true).
Proof.
  split.
  - intros st name m roots full. rewrite version_paths. unfold candidate.
    destruct (module_path roots m) as [p|]; [|done].
    by destruct (startswith p "/").
  - intros get_paths sys_modules full name p. rewrite enumerate_paths.
    unfold candidate. split.
    + intros (k & m & Hk & Hi & Hc).
      destruct (module_path _ m) as [q|] eqn:Em; [|done].
      destruct (startswith q "/") eqn:Eq; [|done].
      injection Hc as -> ->. by exists m.
    + intros (m & Hk & Hi & Hp & Hs). exists name, m.
      by rewrite Hp, Hs.
Qed.


Lemma version_attribute_emitted_exactly_witness :
  family_modules !! "anemoi.utils" = Some utils_module
  /\ version_attr utils_module = Some (PyStr "0.1.9")
  /\ fst (module_versions no_repo 0 example_get_paths family_modules false)
     !! "anemoi.utils" = Some (PyStr "0.1.9").
Proof.
  split_and!; [reflexivity | reflexivity |].
  destruct (version_attribute_emitted_exactly no_repo 0 example_get_paths
              family_modules false "anemoi.utils" utils_module
              (PyStr "0.1.9") eq_refl eq_refl)
    as (_ & _ & _ & Hmember & _).
  apply (Hmember "anemoi" "utils" (Module_ None None));
    [reflexivity | reflexivity | reflexivity | by left].
Defined.

Lemma path_only_component_value_witness :
  example_modules !! "foo" = Some foo_module
  /\ version_attr foo_module = None
  /\ module_path (build_roots example_get_paths) foo_module
     = Some "/opt/devwork/foo/mod.py"
  /\ startswith "/opt/devwork/foo/mod.py" "<stdlib>" = false
  /\ versions (enumerate example_get_paths example_modules false) !! "foo"
     = Some (PyStr ".../mod.py").
Proof.
  split_and!; [reflexivity | reflexivity | reflexivity | reflexivity |].
  apply (path_only_component_value example_get_paths example_modules
           "foo" foo_module "/opt/devwork/foo/mod.py");
    reflexivity.
Defined.

(** A module installed under the pure-library root and without a version
    attribute has no entry in SUMMARY mode: the token form is not
    written. *)
Lemma token_path_not_emitted_in_summary :
  version_attr six_module = None
  /\ module_path (build_roots example_get_paths) six_module
     = Some "<purelib>/six.py"
  /\ versions (enumerate example_get_paths example_modules false) !! "six"
     = None
  /\ versions (version empty_state "six" six_module
                 (build_roots example_get_paths) false) !! "six"
     <> Some (PyStr "<purelib>/six.py").
Proof. split_and!; [reflexivity | reflexivity | reflexivity | by vm_compute]. Qed.

(** A module with a version attribute and a path outside every root adds
    its pair to [paths]. *)
Lemma versioned_component_adds_candidate :
  version_attr devpkg_module = Some (PyStr "0.3.1")
  /\ paths (version empty_state "devpkg" devpkg_module
              (build_roots example_get_paths) false)
     = {[ ("devpkg", "/opt/devwork/devpkg/__init__.py") ]} ∪ ∅
  /\ ("devpkg", "/opt/devwork/devpkg/__init__.py")
     ∈ paths (enumerate example_get_paths example_modules false).
Proof.
  split_and!; [reflexivity | reflexivity |].
  apply enumerate_paths. exists "devpkg", devpkg_module.
  split_and!; reflexivity.
Qed.



(** ** Claims about the root table *)




(** ** Claims about the version-control probe *)

(** C5, as the code has it.  When a repository was found and reading its
    state raises, the handler of [check_for_git] takes the exception only
    if it is a [ValueError]: the line is logged, the dictionary is left as
    it was and the loop goes on with the next pair.  Any other exception
    leaves [check_for_git]. *)
Theorem check_for_git_read_failure
    (Repo : string -> outcome repo) (fuel : nat) (full : bool)
    (name path : string) (rest : list (string * string))
    (vs : gmap string git_entry) (log : list string) (r : repo) (e : exn)
    (Hfound : lookup_git_repo Repo fuel path = Some (Ret (Some r)))
    (Hread : read_state full path r = Raise e) :
  (is_ValueError e = true ->
   check_loop Repo fuel full ((name, path) :: rest) vs log
   = check_loop Repo fuel full rest vs (log ++ [git_error_line path e]))
  /\ (is_ValueError e = false ->
      check_loop Repo fuel full ((name, path) :: rest) vs log
      = Some (Raise e)).
Proof.
  split; intros He; cbn [check_loop]; by rewrite Hfound, Hread, He.
Qed.

Lemma check_for_git_read_failure_witness :
  lookup_git_repo example_Repo 8 "/opt/devwork/foo/mod.py"
  = Some (Ret (Some unborn_repo))
  /\ check_for_git example_Repo 8
       [("foo", "/opt/devwork/foo/mod.py"); ("baz", "/opt/devwork/baz/mod.py")]
       false
     = Some (Ret ({[ "baz" := GitSummary "9d1c77ab" 2 1 ]},
                  ["Error checking git repo /opt/devwork/foo/mod.py: "
                   ++ "Reference at 'refs/heads/main' does not exist"])).
Proof.
  split; [reflexivity|]. unfold check_for_git.
  destruct (check_for_git_read_failure example_Repo 8 false
              "foo" "/opt/devwork/foo/mod.py"
              [("baz", "/opt/devwork/baz/mod.py")] ∅ [] unborn_repo
              (ValueError "Reference at 'refs/heads/main' does not exist")
              eq_refl eq_refl) as [Hskip _].
  rewrite (Hskip eq_refl). reflexivity.
Defined.

(** A repository whose index cannot be read ends [check_for_git] with the
    exception of the git command; the next pair is not probed. *)
Lemma corrupt_index_aborts_check_for_git :
  lookup_git_repo example_Repo 8 "/opt/devwork/bar/mod.py"
  = Some (Ret (Some corrupt_repo))
  /\ read_state false "/opt/devwork/bar/mod.py" corrupt_repo
     = Raise (GitCommandError "index file corrupt")
  /\ check_for_git example_Repo 8
       [("bar", "/opt/devwork/bar/mod.py"); ("baz", "/opt/devwork/baz/mod.py")]
       false
     = Some (Raise (GitCommandError "index file corrupt"))
  /\ forall fuel res,
       check_for_git example_Repo fuel
         [("bar", "/opt/devwork/bar/mod.py");
          ("baz", "/opt/devwork/baz/mod.py")] false
       <> Some (Ret res).
Proof.
  split_and!; [reflexivity | reflexivity | reflexivity |].
  intros fuel res. unfold check_for_git.
  do 4 (destruct fuel as [|fuel]; [done|]). done.
Qed.

(** C10 at the path "//srv/pkg/mod.py" on a host without repositories:
    the parent of "//" is "//", which is not "/", so the loop of
    [lookup_git_repo] has no last turn. *)
Theorem lookup_git_repo_double_slash_diverges (fuel : nat) :
  lookup_git_repo no_repo fuel "//srv/pkg/mod.py" = None.
Proof.
  assert (forall n, lookup_git_repo no_repo n "//" = None) as Hloop.
  { induction n as [|n IHn]; [done|]. exact IHn. }
  do 3 (destruct fuel as [|fuel]; [done|]).
  exact (Hloop fuel).
Qed.

(** The ascent never asks whether "/" is a repository. *)
Lemma lookup_git_repo_spares_root (Repo Repo' : string -> outcome repo)
    (fuel : nat) (path : string) :
  (forall q, q <> "/" -> Repo q = Repo' q) ->
  lookup_git_repo Repo fuel path = lookup_git_repo Repo' fuel path.
Proof.
  intros Hsame. revert path; induction fuel as [|fuel IHf]; intros path.
  - done.
  - cbn [lookup_git_repo].
    destruct (String.eqb_spec path "/") as [->|Hne]; [done|].
    rewrite <- Hsame by done.
    destruct (Repo path) as [r|e]; [done|]. destruct e; auto.
Qed.

(** ** Claims about the probes of the host *)

Lemma lookup_drop_other (l : list (string * pyval))
    (acc : gmap string pyval) (k : string) :
  k ∉ l.*1 ->
  foldl (fun acc kv => if dropped (snd kv) then delete (fst kv) acc else acc)
        acc l !! k
  = acc !! k.
Proof.
  revert acc; induction l as [|[k' v'] l IHl]; intros acc Hk; [done|].
  rewrite fmap_cons, not_elem_of_cons in Hk. destruct Hk as [Hne Hk].
  simpl. rewrite IHl by done.
  destruct (dropped v'); [|done]. by rewrite lookup_delete_ne.
Qed.

Lemma lookup_drop_item (l : list (string * pyval))
    (acc : gmap string pyval) (k : string) (v : pyval) :
  NoDup l.*1 -> (k, v) ∈ l ->
  foldl (fun acc kv => if dropped (snd kv) then delete (fst kv) acc else acc)
        acc l !! k
  = if dropped v then None else acc !! k.
Proof.
  revert acc; induction l as [|[k' v'] l IHl]; intros acc Hnd Hin.
  { by apply elem_of_nil in Hin. }
  rewrite fmap_cons, NoDup_cons in Hnd. destruct Hnd as [Hk' Hnd].
  apply elem_of_cons in Hin as [[= <- <-]|Hin]; simpl.
  - rewrite lookup_drop_other by done.
    destruct (dropped v); [|done]. apply lookup_delete_eq.
  - rewrite IHl by done. destruct (dropped v); [done|].
    destruct (dropped v'); [|done]. rewrite lookup_delete_ne; [done|].
    intros ->. apply Hk', list_elem_of_fmap. by exists (k, v).
Qed.

Lemma post_filter_lookup (r : gmap string pyval) (k : string) :
  post_filter r !! k
  = match r !! k with
    | Some v => if dropped v then None else Some v
    | None => None
    end.
Proof.
  unfold post_filter. destruct (r !! k) as [v|] eqn:E.
  - rewrite (lookup_drop_item _ _ k v), E;
      [done | apply NoDup_fst_map_to_list | by apply elem_of_map_to_list].
  - rewrite lookup_drop_other, E; [done|].
    intros [[k' v] [-> Hin]]%list_elem_of_fmap.
    apply elem_of_map_to_list in Hin. simpl in *. congruence.
Qed.

Lemma all_empty_item_blank (v : pyval) : all_empty_item v = true <-> blank v.
Proof.
  induction v as [s|l IHl|r] using pyval_nested_ind.
  - simpl. split.
    + intros ->%String.eqb_eq. constructor.
    + by inversion 1.
  - cbn [all_empty_item]. rewrite forallb_forall. split.
    + intros H. constructor. rewrite Forall_forall in IHl |- *.
      intros x Hx. apply IHl; [done|]. apply H. by apply list_elem_of_In.
    + inversion 1 as [|? Hl]; subst. rewrite Forall_forall in IHl, Hl.
      intros x Hx%list_elem_of_In. apply IHl; auto.
  - split; [done | inversion 1].
Qed.

(** C8, as the code has it.  The filter deletes exactly the entries whose
    value is a list or tuple made, at every depth, of empty strings only
    (the empty sequence included); an entry whose value is itself the
    empty string stays, as does every other entry. *)
Theorem platform_post_filter :
  (forall platform_dir platform_call,
      platform_info platform_dir platform_call
      = post_filter (collect_platform platform_dir platform_call))
  /\ (forall r k,
        post_filter r !! k
        = match r !! k with
          | Some v => if dropped v then None else Some v
          | None => None
          end)
  /\ (forall v,
        dropped v = true <-> exists l, v = PySeq l /\ Forall blank l)
  /\ (forall r k s,
        post_filter (<[k := PyStr s]> r) !! k = Some (PyStr s)).
Proof.
  split_and!.
  - reflexivity.
  - apply post_filter_lookup.
  - intros v. destruct v as [s|l|r]; simpl.
    + split; [done | by intros (l & ? & _)].
    + unfold all_empty. rewrite forallb_forall. split.
      * intros H. exists l. split; [done|]. apply Forall_forall.
        intros x Hx. apply all_empty_item_blank, H. by apply list_elem_of_In.
      * intros (l' & [= <-] & H) x Hx%list_elem_of_In.
        rewrite Forall_forall in H. by apply all_empty_item_blank, H.
    + split; [done | by intros (l & ? & _)].
  - intros r k s. by rewrite post_filter_lookup, lookup_insert_eq.
Qed.

(** On a host whose processor name is unknown, the entry with the empty
    string is still in the result; the entry of empty tuples is not. *)
Lemma empty_string_entry_is_kept :
  collect_platform example_platform_dir example_platform_call !! "processor"
  = Some (PyStr "")
  /\ platform_info example_platform_dir example_platform_call !! "processor"
     = Some (PyStr "")
  /\ platform_info example_platform_dir example_platform_call !! "mac_ver"
     = None.
Proof. split_and!; reflexivity. Qed.

(** C6, as the code has it.  Once nvsmi is imported: the fixed string when
    the tool is not on the search path; one record for each GPU when the
    query succeeds; the captured output, decoded and stripped, when the
    query raises [CalledProcessError].  A failed import, any other
    exception of the query and an output that cannot be decoded leave
    [gpu_info] as exceptions. *)
Theorem gpu_info_outcomes (gpu gpu_record : Type)
    (to_record : gpu -> gpu_record)
    (decode_utf8 : list Byte.byte -> outcome string)
    (strip : string -> string) (n : nvsmi gpu) :
  (is_nvidia_smi_on_path gpu n = false ->
   gpu_info gpu gpu_record to_record decode_utf8 strip (Ret n)
   = Ret (GpuText gpu_record "nvdia-smi not found"))
  /\ (forall gs,
        is_nvidia_smi_on_path gpu n = true -> get_gpus gpu n = Ret gs ->
        gpu_info gpu gpu_record to_record decode_utf8 strip (Ret n)
        = Ret (GpuRecords gpu_record (map to_record gs))
        /\ length (map to_record gs) = length gs)
  /\ (forall msg output s,
        is_nvidia_smi_on_path gpu n = true ->
        get_gpus gpu n = Raise (CalledProcessError msg output) ->
        decode_utf8 output = Ret s ->
        gpu_info gpu gpu_record to_record decode_utf8 strip (Ret n)
        = Ret (GpuText gpu_record (strip s)))
  /\ (forall msg output e,
        is_nvidia_smi_on_path gpu n = true ->
        get_gpus gpu n = Raise (CalledProcessError msg output) ->
        decode_utf8 output = Raise e ->
        gpu_info gpu gpu_record to_record decode_utf8 strip (Ret n)
        = Raise e)
  /\ (forall e,
        is_nvidia_smi_on_path gpu n = true ->
        get_gpus gpu n = Raise e ->
        (forall msg output, e <> CalledProcessError msg output) ->
        gpu_info gpu gpu_record to_record decode_utf8 strip (Ret n)
        = Raise e)
  /\ (forall e,
        gpu_info gpu gpu_record to_record decode_utf8 strip (Raise e)
        = Raise e).
Proof.
  unfold gpu_info. split_and!.
  - intros H. simpl. by rewrite H.
  - intros gs H Hg. simpl. rewrite H, Hg. split; [done|].
    apply length_map.
  - intros msg output s H Hg Hd. simpl. by rewrite H, Hg, Hd.
  - intros msg output e H Hg Hd. simpl. by rewrite H, Hg, Hd.
  - intros e H Hg Hne. simpl. rewrite H, Hg. simpl.
    destruct e; try done. by destruct (Hne msg output).
  - done.
Qed.

Lemma gpu_info_outcomes_witness :
  is_nvidia_smi_on_path nat (Nvsmi nat false (Ret [])) = false
  /\ gpu_info nat nat S example_decode example_strip
       (Ret (Nvsmi nat false (Ret [])))
     = Ret (GpuText nat "nvdia-smi not found").
Proof.
  split; [reflexivity|].
  apply (gpu_info_outcomes nat nat S example_decode example_strip
           (Nvsmi nat false (Ret []))).
  reflexivity.
Defined.

(** The probe raises when the query fails with another exception than
    [CalledProcessError], and when nvsmi cannot be imported. *)
Lemma gpu_info_can_raise :
  gpu_info nat nat S example_decode example_strip (Ret failing_nvsmi)
  = Raise (ValueError "could not convert string to float: '[N/A]'")
  /\ gpu_info nat nat S example_decode example_strip
       (Raise (ImportError "No module named 'nvsmi'"))
     = Raise (ImportError "No module named 'nvsmi'").
Proof. split; reflexivity. Qed.

Section AssetsProperties.

Context (peek_value : Type).
Context (os_stat : string -> outcome stat_result).
Context (read_chunks : string -> outcome (list (list Byte.byte))).
Context (md5_hexdigest : list Byte.byte -> string).
Context (isoformat : Z -> outcome string).
Context (import_peek : outcome (string -> outcome peek_value)).

Local Abbreviation loop :=
  (assets_loop peek_value os_stat read_chunks md5_hexdigest isoformat
     import_peek).
Local Abbreviation entry :=
  (asset_entry peek_value os_stat read_chunks md5_hexdigest isoformat
     import_peek).
Local Abbreviation md5_of := (path_md5 read_chunks md5_hexdigest).
Local Abbreviation record_of := (fingerprint peek_value isoformat).
Local Abbreviation peek_of := (try_peek peek_value import_peek).

Lemma assets_loop_cons (path : string) (rest : list string)
    (result : gmap string (asset_value peek_value)) :
  loop (path :: rest) result
  = v ← entry path; loop rest (<[path := v]> result).
Proof.
  unfold asset_entry. cbn [assets_loop].
  destruct (os_stat path) as [st|e]; [|done]. simpl.
  destruct (md5_of path) as [md5|e]; [|done]. simpl.
  by destruct (record_of st md5).
Qed.

Lemma assets_loop_lookup (todo : list string)
    (result m : gmap string (asset_value peek_value)) (path : string) :
  loop todo result = Ret m ->
  (path ∈ todo -> exists v, entry path = Ret v /\ m !! path = Some v)
  /\ (path ∉ todo -> m !! path = result !! path).
Proof.
  revert result; induction todo as [|p todo IHt]; intros result Hm.
  - injection Hm as <-. split; [by intros ?%elem_of_nil | done].
  - rewrite assets_loop_cons in Hm.
    destruct (entry p) as [v|e] eqn:Ep; [|done]. simpl in Hm.
    destruct (IHt _ Hm) as [Hin Hout]. split.
    + intros Hp. destruct (decide (path ∈ todo)) as [Ht|Ht]; [by apply Hin|].
      apply elem_of_cons in Hp as [->|Hp]; [|done].
      exists v. split; [done|]. by rewrite Hout, lookup_insert_eq.
    + intros [Hne Ht]%not_elem_of_cons.
      by rewrite Hout, lookup_insert_ne.
Qed.

Lemma fingerprint_shape (st : stat_result) (md5 : string)
    (record : option peek_value -> asset_value peek_value) :
  record_of st md5 = Ret record ->
  exists a m c, record = AssetRecord peek_value (st_size st) a m c md5.
Proof.
  unfold fingerprint.
  destruct (isoformat (st_atime st)) as [a|]; [|done]. simpl.
  destruct (isoformat (st_mtime st)) as [m|]; [|done]. simpl.
  destruct (isoformat (st_ctime st)) as [c|]; [|done]. simpl.
  intros [= <-]. by exists a, m, c.
Qed.

Lemma assets_loop_total (todo : list string)
    (result : gmap string (asset_value peek_value)) :
  (forall t, exists s, isoformat t = Ret s) ->
  exists m, loop todo result = Ret m.
Proof.
  intros Hiso. revert result.
  induction todo as [|p todo IHt]; intros result; [by eexists|].
  cbn [assets_loop].
  destruct (os_stat p) as [st|e]; [|apply IHt]. simpl.
  destruct (md5_of p) as [md5|e]; [|apply IHt]. simpl.
  unfold fingerprint.
  destruct (Hiso (st_atime st)) as [a ->].
  destruct (Hiso (st_mtime st)) as [mt ->].
  destruct (Hiso (st_ctime st)) as [c ->]. simpl. apply IHt.
Qed.

(** C7.  A path whose stat or digest raises gets the text of the
    exception as its entry and the loop goes on with the paths that
    remain; a path whose fingerprint was taken gets a record, without
    the peek field when the import of [peek] or its call raises.  The
    same is read from the dictionary [assets_info] returns, and
    [assets_info] returns whenever the time stamps can be formatted. *)
Theorem assets_info_isolates_failures (path : string) (rest : list string)
    (result : gmap string (asset_value peek_value)) :
  (forall e,
      os_stat path = Raise e
      \/ (exists st, os_stat path = Ret st /\ md5_of path = Raise e) ->
      loop (path :: rest) result
      = loop rest (<[path := AssetError peek_value (exn_str e)]> result))
  /\ (forall st md5 record,
        os_stat path = Ret st -> md5_of path = Ret md5 ->
        record_of st md5 = Ret record ->
        (exists e, import_peek = Raise e)
        \/ (exists peek e, import_peek = Ret peek /\ peek path = Raise e) ->
        (exists a m c,
            record None
            = AssetRecord peek_value (st_size st) a m c md5 None)
        /\ loop (path :: rest) result
           = loop rest (<[path := record None]> result))
  /\ (forall paths m,
        assets_info peek_value os_stat read_chunks md5_hexdigest isoformat
          import_peek paths = Ret m ->
        path ∈ paths ->
        (forall e,
            os_stat path = Raise e
            \/ (exists st, os_stat path = Ret st /\ md5_of path = Raise e) ->
            m !! path = Some (AssetError peek_value (exn_str e)))
        /\ (forall st md5,
              os_stat path = Ret st -> md5_of path = Ret md5 ->
              exists a mt c,
                m !! path
                = Some (AssetRecord peek_value (st_size st) a mt c md5
                          (peek_of path))))
  /\ ((forall t, exists s, isoformat t = Ret s) ->
      forall paths, exists m,
        assets_info peek_value os_stat read_chunks md5_hexdigest isoformat
          import_peek paths = Ret m).
Proof.
  assert (forall e,
             os_stat path = Raise e
             \/ (exists st, os_stat path = Ret st /\ md5_of path = Raise e) ->
             entry path = Ret (AssetError peek_value (exn_str e))) as Hfail.
  { intros e [He|(st & Hst & He)]; unfold asset_entry.
    - by rewrite He.
    - rewrite Hst. simpl. by rewrite He. }
  split_and!.
  - intros e He. by rewrite assets_loop_cons, (Hfail e He).
  - intros st md5 record Hst Hmd5 Hrec Hpeek.
    assert (peek_of path = None) as Hnone.
    { unfold try_peek.
      destruct Hpeek as [[e ->]|(peek & e & -> & ->)]; done. }
    split.
    + destruct (fingerprint_shape _ _ _ Hrec) as (a & m & c & ->).
      by exists a, m, c.
    + rewrite assets_loop_cons. unfold asset_entry.
      rewrite Hst. simpl. rewrite Hmd5. simpl. rewrite Hrec. simpl.
      by rewrite Hnone.
  - intros paths m Hm Hin.
    destruct (assets_loop_lookup _ _ _ path Hm) as [Hlook _].
    destruct (Hlook Hin) as (v & Hv & Hmv). split.
    + intros e He. rewrite (Hfail e He) in Hv. by injection Hv as <-.
    + intros st md5 Hst Hmd5. unfold asset_entry in Hv.
      rewrite Hst in Hv. simpl in Hv. rewrite Hmd5 in Hv. simpl in Hv.
      destruct (record_of st md5) as [record|] eqn:Hrec; [|done].
      simpl in Hv. injection Hv as <-.
      destruct (fingerprint_shape _ _ _ Hrec) as (a & mt & c & ->).
      by exists a, mt, c.
  - intros Hiso paths. by apply assets_loop_total.
Qed.

End AssetsProperties.

Lemma assets_info_isolates_failures_witness :
  example_stat "/data/missing.ckpt"
  = Raise (OSError "[Errno 2] No such file or directory: /data/missing.ckpt")
  /\ assets_loop nat example_stat example_chunks example_md5
       example_isoformat example_import_peek
       ["/data/missing.ckpt"; "/data/model.ckpt"] ∅
     = assets_loop nat example_stat example_chunks example_md5
         example_isoformat example_import_peek
         ["/data/model.ckpt"]
         (<["/data/missing.ckpt" :=
              AssetError nat
                "[Errno 2] No such file or directory: /data/missing.ckpt"]> ∅).
Proof.
  split; [reflexivity|].
  destruct (assets_info_isolates_failures nat example_stat example_chunks
              example_md5 example_isoformat example_import_peek
              "/data/missing.ckpt" ["/data/model.ckpt"] ∅) as [Hfail _].
  apply (Hfail (OSError
                  "[Errno 2] No such file or directory: /data/missing.ckpt")).
  left. reflexivity.
Defined.

Example assets_info_example :
  match assets_info nat example_stat example_chunks example_md5
          example_isoformat example_import_peek
          ["/data/missing.ckpt"; "/data/model.ckpt"] with
  | Ret m =>
      m !! "/data/missing.ckpt"
      = Some (AssetError nat
                "[Errno 2] No such file or directory: /data/missing.ckpt")
      /\ m !! "/data/model.ckpt"
         = Some (AssetRecord nat 42 "2023-11-14T22:13:20"
                   "2023-11-14T22:13:20" "2023-11-14T22:13:20"
                   "md5:PKdata" None)
  | Raise _ => False
  end.
Proof. vm_compute. split; reflexivity. Qed.

(** ** The ascent from a path with a single leading slash *)

Lemma startswith_double_slash (s : string) :
  startswith (String slash s) "//" = startswith s "/".
Proof.
  unfold startswith. rewrite prefix_cons.
  by destruct (ascii_dec "/" slash).
Qed.

Lemma startswith_slash_cons (s : string) :
  startswith (String slash s) "/" = true.
Proof.
  unfold startswith. rewrite prefix_cons.
  destruct (ascii_dec "/" slash); [apply prefix_nil | done].
Qed.

Lemma path_split (p : string) : p = upto_last_slash p ++ basename p.
Proof.
  induction p as [|c p IHp]; [done|]. cbn [upto_last_slash basename].
  destruct (has_char slash p).
  - by rewrite string_app_cons, <- IHp.
  - destruct (Ascii.eqb_spec c slash) as [->|]; reflexivity.
Qed.

Lemma upto_last_slash_end (p : string) :
  has_char slash p = true -> exists h, upto_last_slash p = h ++ "/".
Proof.
  induction p as [|c p IHp]; [done|]. cbn [upto_last_slash has_char].
  destruct (has_char slash p) eqn:E.
  - intros _. destruct (IHp eq_refl) as [h ->]. by exists (String c h).
  - rewrite orb_false_r, Ascii.eqb_sym. intros ->. by exists "".
Qed.

Lemma rstrip_slash_split (s : string) :
  exists u, s = rstrip_slash s ++ u /\ all_slashes u = true.
Proof.
  induction s as [|c s (u & Hs & Hu)]; [by exists ""|].
  cbn [rstrip_slash]. destruct (rstrip_slash s) as [|d r] eqn:E.
  - destruct (Ascii.eqb_spec c slash) as [->|Hne].
    + exists (String slash u). split; [by rewrite Hs at 1|].
      cbn [all_slashes]. by rewrite Ascii.eqb_refl.
    + exists u. split; [by rewrite Hs at 1 | done].
  - exists u. split; [|done]. by rewrite Hs at 1.
Qed.

Lemma rstrip_slash_end (h : string) :
  rstrip_slash (h ++ "/") = rstrip_slash h.
Proof.
  induction h as [|c h IHh]; [done|].
  rewrite string_app_cons. cbn [rstrip_slash]. by rewrite IHh.
Qed.

Lemma rstrip_slash_nil (s : string) :
  rstrip_slash s = "" -> all_slashes s = true.
Proof.
  induction s as [|c s IHs]; [done|]. cbn [rstrip_slash all_slashes].
  destruct (rstrip_slash s); [|done].
  destruct (Ascii.eqb c slash); [auto | done].
Qed.

Lemma all_slashes_app (a b : string) :
  all_slashes (a ++ b) = all_slashes a && all_slashes b.
Proof.
  induction a as [|c a IHa]; [done|].
  rewrite string_app_cons. cbn [all_slashes]. rewrite IHa.
  by destruct (Ascii.eqb c slash).
Qed.

(** A path that starts with one slash and not with two. *)
Lemma single_slash_inv (p : string) :
  startswith p "/" = true -> startswith p "//" = false ->
  exists s, p = String slash s /\ startswith s "/" = false.
Proof.
  intros [s ->]%startswith_slash_inv. rewrite startswith_double_slash.
  by exists s.
Qed.

Lemma single_slash_prefix (r w s : string) :
  r <> "" -> String slash s = r ++ w -> startswith s "/" = false ->
  startswith r "/" = true /\ startswith r "//" = false.
Proof.
  destruct r as [|c r]; [done|]. intros _. rewrite string_app_cons.
  intros [= <- ->] Hs. split; [apply startswith_slash_cons|].
  rewrite startswith_double_slash.
  destruct r as [|d r]; [done|].
  rewrite string_app_cons in Hs. unfold startswith in *.
  rewrite prefix_cons in *. rewrite prefix_nil in Hs.
  by destruct (ascii_dec "/" d).
Qed.

(** One turn of the loop goes to a strictly shorter path of the same
    kind. *)
Lemma dirname_ascends (p : string) :
  startswith p "/" = true -> startswith p "//" = false -> p <> "/" ->
  startswith (dirname p) "/" = true
  /\ startswith (dirname p) "//" = false
  /\ String.length (dirname p) < String.length p.
Proof.
  intros H1 H2 Hne.
  destruct (single_slash_inv p H1 H2) as (s & -> & Hs).
  assert (has_char slash (String slash s) = true) as Hhas.
  { cbn [has_char]. by rewrite Ascii.eqb_refl. }
  destruct (upto_last_slash_end _ Hhas) as [h Hh].
  assert (exists b, String slash s = upto_last_slash (String slash s) ++ b)
    as [b Hsplit] by (eexists; apply path_split).
  unfold dirname. rewrite Hh in *.
  assert (String.eqb (h ++ "/") "" = false) as ->.
  { apply String.eqb_neq. by destruct h. }
  cbn [negb andb].
  destruct (all_slashes (h ++ "/")) eqn:Eall; cbn [negb].
  - assert (h = "") as ->.
    { destruct h as [|c h]; [done|]. exfalso.
      rewrite !string_app_cons in Hsplit. injection Hsplit as <- ->.
      destruct h as [|d h].
      - rewrite string_app_nil_l, string_app_cons in Hs.
        by rewrite startswith_slash_cons in Hs.
      - rewrite !string_app_cons in Hs, Eall. cbn [all_slashes] in Eall.
        apply andb_prop in Eall as [_ [Ed%Ascii.eqb_eq _]%andb_prop].
        subst d. by rewrite startswith_slash_cons in Hs. }
    rewrite string_app_nil_l. split_and!; [reflexivity | reflexivity |].
    destruct s; [done | simpl; lia].
  - rewrite rstrip_slash_end.
    destruct (rstrip_slash_split h) as (u & Hu & _).
    assert (rstrip_slash h <> "") as Hr.
    { intros E. apply rstrip_slash_nil in E.
      by rewrite all_slashes_app, E in Eall. }
    assert (String slash s = rstrip_slash h ++ (u ++ "/" ++ b)) as Hp.
    { rewrite Hsplit at 1. rewrite Hu at 1. by rewrite !string_app_assoc. }
    destruct (single_slash_prefix _ _ _ Hr Hp Hs) as [Ha Hb].
    split_and!; [done | done |].
    apply (f_equal String.length) in Hp.
    rewrite !string_length_app in Hp. rewrite Hp. simpl. lia.
Qed.

(** From a path with a single leading slash the ascent ends, with fuel
    bounded by the length of the path: no repository, a repository at a
    path other than "/", or an exception other than
    [InvalidGitRepositoryError] that [Repo] raised at a path other than
    "/". *)
Lemma lookup_git_repo_terminates (Repo : string -> outcome repo)
    (fuel : nat) (p : string) :
  startswith p "/" = true -> startswith p "//" = false ->
  String.length p <= fuel ->
  lookup_git_repo Repo fuel p = Some (Ret None)
  \/ (exists q r, q <> "/" /\ Repo q = Ret r
                  /\ lookup_git_repo Repo fuel p = Some (Ret (Some r)))
  \/ (exists q e, q <> "/" /\ Repo q = Raise e
                  /\ not_a_repo (Repo q) = false
                  /\ lookup_git_repo Repo fuel p = Some (Raise e)).
Proof.
  revert p; induction fuel as [|fuel IHf]; intros p H1 H2 Hlen.
  { destruct p; [done | simpl in Hlen; lia]. }
  cbn [lookup_git_repo].
  destruct (String.eqb_spec p "/") as [->|Hne]; [by left|].
  destruct (Repo p) as [r|e] eqn:Er.
  { right; left. by exists p, r. }
  destruct (dirname_ascends p H1 H2 Hne) as (D1 & D2 & D3).
  destruct e;
    try (right; right; eexists p, _; rewrite Er; by split_and!).
  apply IHf; [done | done | lia].
Qed.

(** ** Examples *)

Example replace_all_occurrences :
  replace "ab" "<x>" "abcabab" = "<x>c<x><x>".
Proof. reflexivity. Qed.

Example replace_no_overlap : replace "aa" "b" "aaa" = "ba".
Proof. reflexivity. Qed.

Example replace_empty_pattern : replace "" "-" "abc" = "-a-b-c-".
Proof. reflexivity. Qed.

Example dirname_steps :
  map dirname ["/opt/dev/mod.py"; "/opt"; "/"; "/a//b"; "/a/b/"; "mod.py";
               "//srv"; "//"; "///a"]
  = ["/opt/dev"; "/"; "/"; "/a"; "/a/b"; ""; "//"; "//"; "///"].
Proof. reflexivity. Qed.

Example basename_steps :
  map basename ["/opt/dev/mod.py"; "/a/b/"; "mod.py"; "/"]
  = ["mod.py"; ""; "mod.py"; ""].
Proof. reflexivity. Qed.

Example path_join_dots :
  path_join "..." "mod.py" = ".../mod.py" /\ path_join "..." "" = ".../".
Proof. split; reflexivity. Qed.

Example split_on_dot :
  map (split_on dot) ["earthkit.meteo"; "os"; "a."; ".b"; ""; "a.b.c"]
  = [["earthkit"; "meteo"]; ["os"]; ["a"; ""]; [""; "b"]; [""];
     ["a"; "b"; "c"]].
Proof. reflexivity. Qed.

Example sort_roots_stable :
  sort_roots [("a", "1"); ("bb", "2"); ("cc", "3"); ("d", "4"); ("eee", "5")]
  = [("eee", "5"); ("bb", "2"); ("cc", "3"); ("a", "1"); ("d", "4")].
Proof. reflexivity. Qed.

Example build_roots_example :
  build_roots example_get_paths
  = [ ("/usr/lib/python3.11/site-packages", "purelib");
      ("/usr/include/python3.11", "include");
      ("/usr/lib/python3.11", "stdlib");
      ("/usr/bin", "scripts");
      ("/usr", "data") ].
Proof. reflexivity. Qed.

Example enumerate_summary :
  map (fun k => versions (enumerate example_get_paths example_modules false)
                 !! k)
      ["json"; "os"; "six"; "foo"; "devpkg"; "earthkit"; "earthkit.meteo"]
  = [Some (PyStr "2.0.9"); None; None; Some (PyStr ".../mod.py");
     Some (PyStr "0.3.1"); None; Some (PyStr ".../__init__.py")].
Proof. vm_compute. reflexivity. Qed.

Example enumerate_full :
  map (fun k => versions (enumerate example_get_paths example_modules true)
                 !! k)
      ["json"; "os"; "six"; "foo"; "devpkg"; "earthkit"; "earthkit.meteo"]
  = [Some (PyStr "2.0.9"); None; Some (PyStr "<purelib>/six.py");
     Some (PyStr "/opt/devwork/foo/mod.py"); Some (PyStr "0.3.1"); None;
     Some (PyStr "/opt/devwork/earthkit/meteo/__init__.py")].
Proof. vm_compute. reflexivity. Qed.

Example lookup_git_repo_example :
  lookup_git_repo example_Repo 8 "/opt/devwork/baz/pkg/sub/mod.py"
  = Some (Ret (Some clean_repo))
  /\ lookup_git_repo example_Repo 8 "/opt/devwork/devpkg/__init__.py"
     = Some (Ret None).
Proof. split; reflexivity. Qed.

Example check_for_git_full :
  check_for_git example_Repo 8 [("baz", "/opt/devwork/baz/mod.py")] true
  = Some (Ret ({[ "baz" := GitFull "/opt/devwork/baz/mod.py" "9d1c77ab"
                             ["https://example.org/baz.git"]
                             ["a.py"; "b.py"] ["notes.txt"] ]}, [])).
Proof. reflexivity. Qed.

Example gpu_info_error_text :
  gpu_info nat nat S example_decode example_strip
    (Ret (Nvsmi nat true
            (Raise (CalledProcessError "exit status 9"
                      (list_byte_of_string "  no devices found
")))))
  = Ret (GpuText nat "no devices found").
Proof. reflexivity. Qed.

Example version_attribute_of_any_type :
  versions (version empty_state "legacy"
              (Module_ (Some (Some "/usr/lib/python3.11/legacy.py"))
                 (Some (PySeq [PyOther "1"; PyOther "4"])))
              (build_roots example_get_paths) false) !! "legacy"
  = Some (PySeq [PyOther "1"; PyOther "4"]).
Proof. reflexivity. Qed.

(** * Further properties *)

(** ** The ascent of [lookup_git_repo] *)

Lemma lookup_git_repo_more_fuel (Repo : string -> outcome repo)
    (fuel fuel' : nat) (p : string) (res : outcome (option repo)) :
  lookup_git_repo Repo fuel p = Some res -> fuel <= fuel' ->
  lookup_git_repo Repo fuel' p = Some res.
Proof.
  revert fuel' p; induction fuel as [|fuel IHf]; intros fuel' p H Hle; [done|].
  destruct fuel' as [|fuel']; [lia|]. cbn [lookup_git_repo] in *.
  destruct (String.eqb p "/"); [done|].
  destruct (Repo p) as [r|e]; [done|].
  destruct e; try done. apply IHf; [done | lia].
Qed.

Lemma ancestor_succ (k : nat) (p : string) :
  ancestor (S k) p = ancestor k (dirname p).
Proof. unfold ancestor. apply Nat.iter_succ_r. Qed.

(** The ascent returns the repository of the nearest directory that has
    one: if the path and its first [k - 1] parents are neither "/" nor
    repositories and the [k]-th parent is a repository and is not "/",
    that repository is returned, with any fuel above [k]. *)
Theorem lookup_git_repo_nearest (Repo : string -> outcome repo)
    (p : string) (k fuel : nat) (r : repo)
    (Hbelow : forallb
                (fun j => negb (String.eqb (ancestor j p) "/")
                          && not_a_repo (Repo (ancestor j p)))
                (seq 0 k) = true)
    (Hroot : String.eqb (ancestor k p) "/" = false)
    (Hrepo : Repo (ancestor k p) = Ret r)
    (Hfuel : k < fuel) :
  lookup_git_repo Repo fuel p = Some (Ret (Some r)).
Proof.
  revert p fuel Hbelow Hroot Hrepo Hfuel.
  induction k as [|k IHk]; intros p fuel Hbelow Hroot Hrepo Hfuel.
  - destruct fuel as [|fuel]; [lia|]. cbn [lookup_git_repo].
    unfold ancestor in *. simpl in Hroot, Hrepo. by rewrite Hroot, Hrepo.
  - destruct fuel as [|fuel]; [lia|]. cbn [lookup_git_repo].
    rewrite <- cons_seq in Hbelow. cbn [forallb] in Hbelow.
    apply andb_prop in Hbelow as [H0 Hbelow].
    apply andb_prop in H0 as [Hne Hnot]. unfold ancestor in Hne, Hnot.
    simpl in Hne, Hnot. apply negb_true_iff in Hne. rewrite Hne.
    unfold not_a_repo in Hnot.
    destruct (Repo p) as [r'|e]; [done|]. destruct e; try done.
    rewrite ancestor_succ in Hroot, Hrepo.
    apply IHk; [|done|done|lia].
    rewrite forallb_forall in Hbelow |- *. intros j Hj.
    rewrite <- ancestor_succ. apply Hbelow.
    apply in_seq in Hj. apply in_seq. lia.
Qed.

Lemma lookup_git_repo_nearest_witness :
  forallb
    (fun j =>
       negb (String.eqb (ancestor j "/opt/devwork/baz/pkg/sub/mod.py") "/")
       && not_a_repo
            (example_Repo (ancestor j "/opt/devwork/baz/pkg/sub/mod.py")))
    (seq 0 3) = true
  /\ lookup_git_repo example_Repo 8 "/opt/devwork/baz/pkg/sub/mod.py"
     = Some (Ret (Some clean_repo)).
Proof.
  split; [reflexivity|].
  apply (lookup_git_repo_nearest example_Repo
           "/opt/devwork/baz/pkg/sub/mod.py" 3 8 clean_repo);
    [reflexivity | reflexivity | reflexivity | lia].
Defined.

Lemma lookup_git_repo_terminates_witness :
  startswith "/opt/devwork/devpkg/__init__.py" "/" = true
  /\ startswith "/opt/devwork/devpkg/__init__.py" "//" = false
  /\ (lookup_git_repo example_Repo 31 "/opt/devwork/devpkg/__init__.py"
      = Some (Ret None)
      \/ (exists q r,
             q <> "/" /\ example_Repo q = Ret r
             /\ lookup_git_repo example_Repo 31
                  "/opt/devwork/devpkg/__init__.py"
                = Some (Ret (Some r)))
      \/ (exists q e,
             q <> "/" /\ example_Repo q = Raise e
             /\ not_a_repo (example_Repo q) = false
             /\ lookup_git_repo example_Repo 31
                  "/opt/devwork/devpkg/__init__.py"
                = Some (Raise e))).
Proof.
  split_and!; [reflexivity | reflexivity |].
  apply (lookup_git_repo_terminates example_Repo 31
           "/opt/devwork/devpkg/__init__.py");
    [reflexivity | reflexivity | simpl; lia].
Defined.

Lemma lookup_git_repo_spares_root_witness :
  (forall q, q <> "/" ->
             example_Repo q
             = (fun q' => if String.eqb q' "/" then Ret clean_repo
                          else example_Repo q') q)
  /\ lookup_git_repo example_Repo 8 "/opt/devwork/devpkg/__init__.py"
     = lookup_git_repo
         (fun q' => if String.eqb q' "/" then Ret clean_repo
                    else example_Repo q')
         8 "/opt/devwork/devpkg/__init__.py".
Proof.
  assert (forall q, q <> "/" ->
                    example_Repo q
                    = (fun q' => if String.eqb q' "/" then Ret clean_repo
                                 else example_Repo q') q) as Hsame.
  { intros q Hq. apply String.eqb_neq in Hq. cbv beta. by rewrite Hq. }
  split; [exact Hsame|].
  exact (lookup_git_repo_spares_root example_Repo _ 8
           "/opt/devwork/devpkg/__init__.py" Hsame).
Defined.

Lemma upto_last_slash_double (s : string) :
  upto_last_slash (String slash (String slash s))
  = String slash (String slash (if has_char slash s then upto_last_slash s
                                else "")).
Proof.
  cbn [upto_last_slash has_char]. rewrite Ascii.eqb_refl. cbn [orb].
  by destruct (has_char slash s).
Qed.

Lemma rstrip_slash_not_nil (s : string) :
  all_slashes s = false -> rstrip_slash s <> "".
Proof. intros H E. apply rstrip_slash_nil in E. congruence. Qed.

Lemma startswith_double_inv (p : string) :
  startswith p "//" = true -> exists s, p = String slash (String slash s).
Proof.
  intros H. destruct (startswith_slash_inv p) as [s ->].
  { unfold startswith in *. destruct p as [|c p]; [done|].
    rewrite prefix_cons in *. destruct (ascii_dec "/" c); [|done].
    apply prefix_nil. }
  rewrite startswith_double_slash in H.
  apply startswith_slash_inv in H as [s' ->]. by exists s'.
Qed.

(** The parent of a path with two leading slashes has two leading
    slashes, and the parent of a relative path is relative. *)
Lemma dirname_stays_off (p : string) :
  (startswith p "//" = true -> startswith (dirname p) "//" = true)
  /\ (startswith p "/" = false -> startswith (dirname p) "/" = false).
Proof.
  split.
  - intros [s ->]%startswith_double_inv. unfold dirname.
    rewrite upto_last_slash_double.
    set (h := if has_char slash s then upto_last_slash s else "").
    change (String.eqb (String slash (String slash h)) "") with false.
    cbn [negb andb].
    destruct (all_slashes (String slash (String slash h))) eqn:Eall;
      cbn [negb].
    + by rewrite startswith_double_slash, startswith_slash_cons.
    + cbn [all_slashes] in Eall. rewrite Ascii.eqb_refl in Eall.
      cbn [andb] in Eall. apply rstrip_slash_not_nil in Eall.
      cbn [rstrip_slash]. destruct (rstrip_slash h) as [|c r]; [done|].
      by rewrite startswith_double_slash, startswith_slash_cons.
  - intros Hrel.
    destruct (startswith (dirname p) "/") eqn:E; [|done].
    apply startswith_slash_inv in E as [d Hd].
    assert (exists w, p = dirname p ++ w) as [w Hw].
    { unfold dirname.
      destruct (negb _ && negb _).
      - destruct (rstrip_slash_split (upto_last_slash p)) as (u & Hu & _).
        exists (u ++ basename p). rewrite <- string_app_assoc, <- Hu.
        apply path_split.
      - exists (basename p). apply path_split. }
    rewrite Hd, string_app_cons in Hw. rewrite Hw in Hrel.
    by rewrite startswith_slash_cons in Hrel.
Qed.

(** On a host where no directory is a repository, the ascent from a path
    that does not start with exactly one slash never ends: a relative
    path, the empty path and a path with two or more leading slashes
    never become "/". *)
Theorem lookup_git_repo_diverges_off_root (Repo : string -> outcome repo)
    (p : string) (fuel : nat)
    (Hnone : forall q, not_a_repo (Repo q) = true)
    (Hoff : startswith p "/" && negb (startswith p "//") = false) :
  lookup_git_repo Repo fuel p = None.
Proof.
  revert p Hoff; induction fuel as [|fuel IHf]; intros p Hoff; [done|].
  cbn [lookup_git_repo].
  destruct (String.eqb_spec p "/") as [->|Hne]; [done|].
  specialize (Hnone p). unfold not_a_repo in Hnone.
  destruct (Repo p) as [r|e]; [done|]. destruct e; try done.
  apply IHf. destruct (dirname_stays_off p) as [Hd Hr].
  destruct (startswith p "/") eqn:E1.
  - destruct (startswith p "//") eqn:E2; [|done].
    by rewrite (Hd eq_refl), andb_false_r.
  - by rewrite (Hr eq_refl).
Qed.

Lemma lookup_git_repo_diverges_off_root_witness :
  (forall q, not_a_repo (no_repo q) = true)
  /\ startswith "pkg/mod.py" "/" && negb (startswith "pkg/mod.py" "//") = false
  /\ lookup_git_repo no_repo 1000 "pkg/mod.py" = None.
Proof.
  split_and!; [reflexivity | reflexivity |].
  apply (lookup_git_repo_diverges_off_root no_repo "pkg/mod.py" 1000);
    reflexivity.
Defined.

(** ** The records of [check_for_git] *)

Lemma sorted_strings_Permutation (l : list string) : sorted_strings l ≡ₚ l.
Proof. apply merge_sort_Permutation. Qed.

Lemma sorted_strings_Sorted (l : list string) :
  Sorted String.le (sorted_strings l).
Proof. apply (Sorted_merge_sort String.le). Qed.

Lemma sorted_strings_length (l : list string) :
  length (sorted_strings l) = length l.
Proof. by rewrite sorted_strings_Permutation. Qed.

(** The record built in FULL mode holds the candidate path (the path of
    the module's file, not the root of the repository), the remotes as
    read, and the modified and untracked files in sorted order; whenever
    it can be built, the record of SUMMARY mode can be built too and its
    two counts are the lengths of those lists. *)
Theorem read_state_full_then_summary (path : string) (r : repo)
    (entry : git_entry)
    (Hfull : read_state true path r = Ret entry) :
  exists sha rs m u,
    head_commit_hexsha r = Ret sha /\ remotes r = Ret rs
    /\ index_diff r = Ret m /\ untracked_files r = Ret u
    /\ entry = GitFull path sha rs (sorted_strings m) (sorted_strings u)
    /\ Sorted String.le (sorted_strings m) /\ sorted_strings m ≡ₚ m
    /\ Sorted String.le (sorted_strings u) /\ sorted_strings u ≡ₚ u
    /\ read_state false path r = Ret (GitSummary sha (length m) (length u)).
Proof.
  unfold read_state in *. cbn [negb] in *.
  destruct (head_commit_hexsha r) as [sha|]; [|done].
  destruct (remotes r) as [rs|]; [|done].
  destruct (index_diff r) as [m|]; [|done].
  destruct (untracked_files r) as [u|]; [|done].
  simpl in Hfull. injection Hfull as <-.
  exists sha, rs, m, u.
  split_and!; try done;
    auto using sorted_strings_Sorted, sorted_strings_Permutation.
Qed.

Lemma read_state_full_then_summary_witness :
  read_state true "/opt/devwork/baz/mod.py" clean_repo
  = Ret (GitFull "/opt/devwork/baz/mod.py" "9d1c77ab"
           ["https://example.org/baz.git"] ["a.py"; "b.py"] ["notes.txt"])
  /\ exists sha rs m u,
      head_commit_hexsha clean_repo = Ret sha /\ remotes clean_repo = Ret rs
      /\ index_diff clean_repo = Ret m /\ untracked_files clean_repo = Ret u
      /\ GitFull "/opt/devwork/baz/mod.py" "9d1c77ab"
           ["https://example.org/baz.git"] ["a.py"; "b.py"] ["notes.txt"]
         = GitFull "/opt/devwork/baz/mod.py" sha rs (sorted_strings m)
             (sorted_strings u)
      /\ Sorted String.le (sorted_strings m) /\ sorted_strings m ≡ₚ m
      /\ Sorted String.le (sorted_strings u) /\ sorted_strings u ≡ₚ u
      /\ read_state false "/opt/devwork/baz/mod.py" clean_repo
         = Ret (GitSummary sha (length m) (length u)).
Proof.
  split; [reflexivity|].
  apply (read_state_full_then_summary "/opt/devwork/baz/mod.py" clean_repo).
  reflexivity.
Defined.

Lemma read_state_shape (full : bool) (path : string) (r : repo)
    (entry : git_entry) :
  read_state full path r = Ret entry ->
  if full
  then exists sha rs ms us, entry = GitFull path sha rs ms us
  else exists sha m u, entry = GitSummary sha m u.
Proof.
  unfold read_state. destruct full; cbn [negb].
  - destruct (head_commit_hexsha r) as [sha|]; [|done].
    destruct (remotes r) as [rs|]; [|done].
    destruct (index_diff r) as [m|]; [|done].
    destruct (untracked_files r) as [u|]; [|done].
    intros [= <-]. by eexists _, _, _, _.
  - destruct (head_commit_hexsha r) as [sha|]; [|done].
    destruct (index_diff r) as [m|]; [|done].
    destruct (untracked_files r) as [u|]; [|done].
    intros [= <-]. by eexists _, _, _.
Qed.

Section CheckForGit.

Context (Repo : string -> outcome repo) (fuel : nat) (full : bool).

Lemma check_loop_sound (todo : list (string * string))
    (vs vs' : gmap string git_entry) (log log' : list string)
    (name : string) (entry : git_entry) :
  check_loop Repo fuel full todo vs log = Some (Ret (vs', log')) ->
  vs' !! name = Some entry ->
  vs !! name = Some entry
  \/ exists path r,
      (name, path) ∈ todo
      /\ lookup_git_repo Repo fuel path = Some (Ret (Some r))
      /\ read_state full path r = Ret entry.
Proof.
  revert vs log; induction todo as [|[n p] todo IHt]; intros vs log Hrun Hin.
  { injection Hrun as <- <-. by left. }
  cbn [check_loop] in Hrun.
  destruct (lookup_git_repo Repo fuel p) as [[[r|]|e]|] eqn:El; try done.
  - destruct (read_state full p r) as [en|e] eqn:Er.
    + destruct (IHt _ _ Hrun Hin) as [Hvs|(path & r' & Hp & Hl & Hr)].
      * destruct (decide (n = name)) as [->|Hne].
        -- rewrite lookup_insert_eq in Hvs. injection Hvs as ->.
           right. exists p, r. split_and!; [set_solver | done | done].
        -- rewrite lookup_insert_ne in Hvs by done. by left.
      * right. exists path, r'. split_and!; [set_solver | done | done].
    + destruct (is_ValueError e); [|done].
      destruct (IHt _ _ Hrun Hin) as [Hvs|(path & r' & Hp & Hl & Hr)];
        [by left|].
      right. exists path, r'. split_and!; [set_solver | done | done].
  - destruct (IHt _ _ Hrun Hin) as [Hvs|(path & r' & Hp & Hl & Hr)];
      [by left|].
    right. exists path, r'. split_and!; [set_solver | done | done].
Qed.

(** Every record of [git_versions] belongs to a candidate pair for which
    the ascent found a repository and whose state could be read; it is a
    summary record in SUMMARY mode and a full record holding the
    candidate's path in FULL mode. *)
Theorem check_for_git_records_sound (paths : list (string * string))
    (vs : gmap string git_entry) (log : list string)
    (name : string) (entry : git_entry)
    (Hrun : check_for_git Repo fuel paths full = Some (Ret (vs, log)))
    (Hin : vs !! name = Some entry) :
  exists path r,
    (name, path) ∈ paths
    /\ lookup_git_repo Repo fuel path = Some (Ret (Some r))
    /\ read_state full path r = Ret entry
    /\ if full
       then exists sha rs ms us, entry = GitFull path sha rs ms us
       else exists sha m u, entry = GitSummary sha m u.
Proof.
  unfold check_for_git in Hrun.
  destruct (check_loop_sound paths ∅ vs [] log name entry Hrun Hin)
    as [Hvs|(path & r & Hp & Hl & Hr)].
  { by rewrite lookup_empty in Hvs. }
  exists path, r. split_and!; try done.
  by apply (read_state_shape full path r).
Qed.

Lemma check_loop_returns (todo : list (string * string))
    (vs : gmap string git_entry) (log : list string) :
  Forall (harmless Repo fuel full) todo ->
  exists vs' log', check_loop Repo fuel full todo vs log
                   = Some (Ret (vs', log')).
Proof.
  intros Hall. revert vs log.
  induction Hall as [|[n p] todo Hp _ IHt]; intros vs log.
  { by eexists _, _. }
  cbn [check_loop]. unfold harmless in Hp. cbn [snd] in Hp.
  destruct (lookup_git_repo Repo fuel p) as [[[r|]|e]|];
    [|apply IHt|done|done].
  destruct (read_state full p r) as [entry|e]; [apply IHt|].
  destruct (is_ValueError e); [apply IHt | done].
Qed.

End CheckForGit.

(** [check_for_git] returns, with a record or a logged line for every
    repository found, whenever every candidate is harmless: the only
    exceptions that leave it are those of [Repo] other than
    [InvalidGitRepositoryError] and those of the reads other than
    [ValueError]. *)
Theorem check_for_git_returns (Repo : string -> outcome repo) (fuel : nat)
    (full : bool) (paths : list (string * string))
    (Hall : forallb (harmless Repo fuel full) paths = true) :
  exists vs log, check_for_git Repo fuel paths full = Some (Ret (vs, log)).
Proof.
  apply check_loop_returns. apply Forall_forall. intros pair Hin.
  rewrite forallb_forall in Hall. apply Is_true_true, Hall.
  by apply list_elem_of_In.
Qed.

Lemma check_for_git_returns_witness :
  forallb (harmless example_Repo 8 false)
    [("foo", "/opt/devwork/foo/mod.py"); ("baz", "/opt/devwork/baz/mod.py");
     ("devpkg", "/opt/devwork/devpkg/__init__.py")] = true
  /\ exists vs log,
      check_for_git example_Repo 8
        [("foo", "/opt/devwork/foo/mod.py");
         ("baz", "/opt/devwork/baz/mod.py");
         ("devpkg", "/opt/devwork/devpkg/__init__.py")] false
      = Some (Ret (vs, log)).
Proof.
  split; [reflexivity|].
  apply (check_for_git_returns example_Repo 8 false). reflexivity.
Defined.

Lemma check_for_git_records_sound_witness :
  check_for_git example_Repo 8 [("baz", "/opt/devwork/baz/mod.py")] true
  = Some (Ret ({[ "baz" := GitFull "/opt/devwork/baz/mod.py" "9d1c77ab"
                             ["https://example.org/baz.git"]
                             ["a.py"; "b.py"] ["notes.txt"] ]}, []))
  /\ exists path r,
      ("baz", path) ∈ [("baz", "/opt/devwork/baz/mod.py")]
      /\ lookup_git_repo example_Repo 8 path = Some (Ret (Some r))
      /\ read_state true path r
         = Ret (GitFull "/opt/devwork/baz/mod.py" "9d1c77ab"
                  ["https://example.org/baz.git"] ["a.py"; "b.py"]
                  ["notes.txt"])
      /\ exists sha rs ms us,
          GitFull "/opt/devwork/baz/mod.py" "9d1c77ab"
            ["https://example.org/baz.git"] ["a.py"; "b.py"] ["notes.txt"]
          = GitFull path sha rs ms us.
Proof.
  split; [reflexivity|].
  apply (check_for_git_records_sound example_Repo 8 true
           [("baz", "/opt/devwork/baz/mod.py")]
           {[ "baz" := GitFull "/opt/devwork/baz/mod.py" "9d1c77ab"
                         ["https://example.org/baz.git"]
                         ["a.py"; "b.py"] ["notes.txt"] ]}
           [] "baz");
    reflexivity.
Defined.

(** ** The root table and [normalize] *)

(** A path in which no registered root occurs is left as it is. *)
Theorem normalize_unmatched_path (items : list (string * string))
    (p : string)
    (Hnone : forallb (fun it => negb (occurs (snd it) p)) items = true) :
  normalize (build_roots items) p = p.
Proof.
  apply normalize_absent, Forall_forall. intros r Hr.
  rewrite forallb_forall in Hnone.
  apply build_roots_registered, Hnone in Hr. cbn [snd] in Hr.
  by apply negb_true_iff in Hr.
Qed.

Lemma normalize_unmatched_path_witness :
  forallb (fun it => negb (occurs (snd it) "/opt/devwork/foo/mod.py"))
    example_get_paths = true
  /\ normalize (build_roots example_get_paths) "/opt/devwork/foo/mod.py"
     = "/opt/devwork/foo/mod.py".
Proof.
  split; [reflexivity|].
  apply (normalize_unmatched_path example_get_paths). reflexivity.
Defined.

(** The table holds every registered path once and nothing else. *)
Theorem build_roots_paths (items : list (string * string)) :
  NoDup (build_roots items).*1
  /\ forall p, p ∈ (build_roots items).*1 <-> p ∈ items.*2.
Proof.
  split; [apply build_roots_NoDup|]. intros p.
  destruct (root_name p (build_roots items)) as [n|] eqn:E.
  - split.
    + intros _. rewrite build_roots_name in E.
      destruct (find _ items) as [[n' p']|] eqn:Ef; [|done].
      apply find_some in Ef as [Hin Hp]. cbn [snd] in Hp.
      apply String.eqb_eq in Hp as ->.
      apply list_elem_of_fmap. exists (n', p). split; [done|].
      by apply list_elem_of_In.
    + intros _. apply root_name_Some in E; [|apply build_roots_NoDup].
      apply list_elem_of_fmap. by exists (p, n).
  - split.
    + intros Hin. by apply root_name_None in E.
    + intros [[n' p'] [-> Hin]]%list_elem_of_fmap.
      rewrite build_roots_name in E.
      destruct (find _ items) as [x|] eqn:Ef; [done|].
      apply (find_none _ _ Ef (n', p')) in Hin ||
        (apply list_elem_of_In in Hin;
         apply (find_none _ _ Ef (n', p')) in Hin).
      cbn [snd] in Hin. by rewrite String.eqb_refl in Hin.
Qed.

(** ** What the enumerator reports *)

(** ** What the enumerator reports *)

Lemma inspected_shape (roots : list (string * string))
    (sys_modules : gmap string module) (k : string) :
  inspected roots sys_modules k = true ->
  has_char dot k = false
  \/ exists b0 b1 m0,
      split_on dot k = [b0; b1] /\ sys_modules !! b0 = Some m0
      /\ version_attr m0 = None
      /\ (file_attr m0 = None \/ file_attr m0 = Some None).
Proof.
  unfold inspected. destruct (has_char dot k); [|by left]. cbn [negb orb].
  destruct (split_on dot k) as [|b0 [|b1 [|b2 l]]]; try done.
  destruct (sys_modules !! b0) as [m0|] eqn:E0; [|done].
  unfold is_namespace, module_path. intros H. right. exists b0, b1, m0.
  destruct (version_attr m0); [done|].
  destruct (file_attr m0) as [[f|]|]; [done | |];
    (split_and!; [reflexivity | exact E0 | reflexivity | auto]).
Qed.

(** Only two kinds of names get an entry in [module_versions] or a
    candidate pair: loaded modules whose name has no dot, and loaded
    modules whose name has exactly two segments, the first being a loaded
    module with neither a version attribute nor a file.  Deeper names,
    and the submodules of a package that has a version or a file, are
    never looked at. *)
Theorem enumerate_inspects_two_levels (get_paths : list (string * string))
    (sys_modules : gmap string module) (full : bool) (k : string)
    (Hseen : is_Some (versions (enumerate get_paths sys_modules full) !! k)
             \/ exists p,
                 (k, p) ∈ paths (enumerate get_paths sys_modules full)) :
  exists m,
    sys_modules !! k = Some m
    /\ (has_char dot k = false
        \/ exists b0 b1 m0,
            split_on dot k = [b0; b1] /\ sys_modules !! b0 = Some m0
            /\ version_attr m0 = None
            /\ (file_attr m0 = None \/ file_attr m0 = Some None)).
Proof.
  destruct Hseen as [[v Hv]|[p Hp]].
  - rewrite enumerate_versions in Hv.
    destruct (sys_modules !! k) as [m|]; [|done]. exists m. split; [done|].
    destruct (inspected _ _ k) eqn:Ei; [|done].
    by apply inspected_shape in Ei.
  - apply enumerate_paths in Hp as (k' & m & Hk & Hi & Hc).
    unfold candidate in Hc. destruct (module_path _ m) as [q|]; [|done].
    destruct (startswith q "/"); [|done]. injection Hc as -> ->.
    exists m. split; [done|]. by apply inspected_shape in Hi.
Qed.

Lemma enumerate_inspects_two_levels_witness :
  is_Some (versions (enumerate example_get_paths example_modules false)
             !! "earthkit.meteo")
  /\ exists m,
      example_modules !! "earthkit.meteo" = Some m
      /\ (has_char dot "earthkit.meteo" = false
          \/ exists b0 b1 m0,
              split_on dot "earthkit.meteo" = [b0; b1]
              /\ example_modules !! b0 = Some m0
              /\ version_attr m0 = None
              /\ (file_attr m0 = None \/ file_attr m0 = Some None)).
Proof.
  assert (is_Some (versions (enumerate example_get_paths example_modules
                               false) !! "earthkit.meteo")) as Hsome.
  { exists (PyStr ".../__init__.py"). reflexivity. }
  split; [exact Hsome|].
  apply (enumerate_inspects_two_levels example_get_paths example_modules
           false "earthkit.meteo").
  left. exact Hsome.
Defined.

(** The mode changes neither the candidate pairs nor the entries of
    versioned modules, and every name reported in SUMMARY mode is
    reported in FULL mode. *)
Theorem enumerate_summary_within_full (get_paths : list (string * string))
    (sys_modules : gmap string module) :
  paths (enumerate get_paths sys_modules false)
  = paths (enumerate get_paths sys_modules true)
  /\ (forall k,
        is_Some (versions (enumerate get_paths sys_modules false) !! k) ->
        is_Some (versions (enumerate get_paths sys_modules true) !! k))
  /\ (forall k m v,
        sys_modules !! k = Some m -> version_attr m = Some v ->
        versions (enumerate get_paths sys_modules false) !! k
        = versions (enumerate get_paths sys_modules true) !! k).
Proof.
  split_and!.
  - apply set_eq. intros c. by rewrite !enumerate_paths.
  - intros k. rewrite !enumerate_versions.
    destruct (sys_modules !! k) as [m|]; [|done].
    destruct (inspected _ _ k); [|done]. unfold emitted.
    destruct (version_attr m); [done|].
    destruct (module_path _ m) as [p|]; [|done].
    destruct (startswith p "<stdlib>"); [done|].
    destruct (startswith p "<"); [by intros []|done].
  - intros k m v Hk Hv. rewrite !enumerate_versions, Hk.
    unfold emitted. by rewrite Hv.
Qed.

(** In SUMMARY mode the entry of a module without a version attribute
    never shows a directory: it is ".../" followed by a file name without
    any slash. *)
Theorem summary_hides_directories (get_paths : list (string * string))
    (sys_modules : gmap string module) (k : string) (m : module) (v : pyval)
    (Hk : sys_modules !! k = Some m)
    (Hv : version_attr m = None)
    (Hentry : versions (enumerate get_paths sys_modules false) !! k = Some v) :
  exists b, v = PyStr (".../" ++ b) /\ has_char slash b = false.
Proof.
  rewrite enumerate_versions, Hk in Hentry.
  destruct (inspected _ _ k); [|done]. unfold emitted in Hentry.
  rewrite Hv in Hentry. destruct (module_path _ m) as [p|]; [|done].
  destruct (startswith p "<stdlib>"); [done|]. cbn in Hentry.
  destruct (startswith p "<"); [done|]. injection Hentry as <-.
  exists (basename p). by rewrite join_dots_basename, basename_no_slash.
Qed.

Lemma summary_hides_directories_witness :
  example_modules !! "foo" = Some foo_module
  /\ version_attr foo_module = None
  /\ versions (enumerate example_get_paths example_modules false) !! "foo"
     = Some (PyStr ".../mod.py")
  /\ exists b, PyStr ".../mod.py" = PyStr (".../" ++ b)
               /\ has_char slash b = false.
Proof.
  split_and!; [reflexivity | reflexivity | reflexivity |].
  apply (summary_hides_directories example_get_paths example_modules
           "foo" foo_module);
    reflexivity.
Defined.

(** ** The platform probe *)

Lemma collect_platform_fold (platform_call : string -> outcome pyval)
    (dir : list string) (acc : gmap string pyval) (p : string) :
  foldl (fun r q =>
           if startswith q "_" then r
           else match platform_call q with
                | Ret v => <[q := v]> r
                | Raise _ => r
                end)
        acc dir !! p
  = if bool_decide (p ∈ dir) && negb (startswith p "_")
    then match platform_call p with
         | Ret v => Some v
         | Raise _ => acc !! p
         end
    else acc !! p.
Proof.
  revert acc; induction dir as [|q dir IHd]; intros acc; [done|].
  cbn [foldl]. rewrite IHd. clear IHd.
  destruct (decide (q = p)) as [->|Hne].
  - rewrite (bool_decide_eq_true_2 (p ∈ p :: dir)) by set_solver.
    destruct (startswith p "_") eqn:Es.
    + by rewrite andb_false_r.
    + rewrite andb_true_r. cbn [negb andb].
      destruct (platform_call p) as [v|e].
      * rewrite lookup_insert_eq. by destruct (bool_decide (p ∈ dir)).
      * by destruct (bool_decide (p ∈ dir)).
  - assert (bool_decide (p ∈ q :: dir) = bool_decide (p ∈ dir)) as ->.
    { apply bool_decide_ext. rewrite elem_of_cons. split; [intros [?|?]; congruence | auto]. }
    assert ((if startswith q "_" then acc
             else match platform_call q with
                  | Ret v => <[q := v]> acc
                  | Raise _ => acc
                  end) !! p = acc !! p) as ->; [|done].
    destruct (startswith q "_"); [done|].
    destruct (platform_call q); [by rewrite lookup_insert_ne | done].
Qed.

(** The result of [platform_info] has an entry for a name exactly when
    the name is listed by [dir(platform)], does not start with an
    underscore, its call returned, and the value returned is not a list
    or tuple made of empty strings only; the entry is that value.  A
    query that raises is left out and stops nothing. *)
Theorem platform_info_entries (platform_dir : list string)
    (platform_call : string -> outcome pyval) (p : string) (v : pyval) :
  platform_info platform_dir platform_call !! p = Some v
  <-> p ∈ platform_dir /\ startswith p "_" = false
      /\ platform_call p = Ret v /\ dropped v = false.
Proof.
  unfold platform_info, collect_platform.
  rewrite post_filter_lookup, collect_platform_fold, lookup_empty.
  destruct (decide (p ∈ platform_dir)) as [Hin|Hin].
  - rewrite bool_decide_eq_true_2 by done. cbn [andb].
    destruct (startswith p "_"); cbn [negb].
    + split; [done | by intros (_ & ? & _)].
    + destruct (platform_call p) as [w|e].
      * destruct (dropped w) eqn:Ed.
        -- split; [done|]. intros (_ & _ & [= ->] & ?). congruence.
        -- split; [by intros [= ->] | by intros (_ & _ & [= ->] & _)].
      * split; [done | by intros (_ & _ & ? & _)].
  - rewrite bool_decide_eq_false_2 by done. cbn [andb].
    split; [done | by intros (? & _)].
Qed.

(** ** The asset fingerprints *)

Section AssetsFurther.

Context (peek_value : Type).
Context (os_stat : string -> outcome stat_result).
Context (read_chunks : string -> outcome (list (list Byte.byte))).
Context (md5_hexdigest : list Byte.byte -> string).
Context (isoformat : Z -> outcome string).
Context (import_peek : outcome (string -> outcome peek_value)).

Local Abbreviation loop :=
  (assets_loop peek_value os_stat read_chunks md5_hexdigest isoformat
     import_peek).
Local Abbreviation info :=
  (assets_info peek_value os_stat read_chunks md5_hexdigest isoformat
     import_peek).
Local Abbreviation md5_of := (path_md5 read_chunks md5_hexdigest).

(** When [assets_info] returns, the keys of its dictionary are exactly
    the paths it was given: a path that could not be read has an entry
    as well, and a path listed twice has one. *)
Theorem assets_info_keys (paths : list string)
    (m : gmap string (asset_value peek_value)) :
  info paths = Ret m ->
  dom m = list_to_set paths.
Proof.
  intros Hm. apply set_eq. intros p.
  rewrite elem_of_dom, elem_of_list_to_set.
  destruct (assets_loop_lookup _ _ _ _ _ _ _ _ _ p Hm) as [Hin Hout].
  split.
  - intros Hsome. destruct (decide (p ∈ paths)) as [|Hn]; [done|].
    rewrite (Hout Hn), lookup_empty in Hsome. by destruct Hsome.
  - intros Hp. destruct (Hin Hp) as (v & _ & ->). by eexists.
Qed.

Lemma assets_loop_raises (todo : list string)
    (result : gmap string (asset_value peek_value)) (e : exn) :
  loop todo result = Raise e ->
  exists path st md5,
    path ∈ todo /\ os_stat path = Ret st /\ md5_of path = Ret md5
    /\ (isoformat (st_atime st) = Raise e
        \/ isoformat (st_mtime st) = Raise e
        \/ isoformat (st_ctime st) = Raise e).
Proof.
  revert result; induction todo as [|p todo IHt]; intros result; [done|].
  cbn [assets_loop].
  assert (forall r, loop todo r = Raise e ->
            exists path st md5,
              path ∈ p :: todo /\ os_stat path = Ret st
              /\ md5_of path = Ret md5
              /\ (isoformat (st_atime st) = Raise e
                  \/ isoformat (st_mtime st) = Raise e
                  \/ isoformat (st_ctime st) = Raise e)) as Hrest.
  { intros r Hr. destruct (IHt _ Hr) as (path & st & md5 & Hin & H).
    exists path, st, md5. split; [apply elem_of_cons; by right | done]. }
  destruct (os_stat p) as [st|e0] eqn:Est; [|apply Hrest]. simpl.
  destruct (md5_of p) as [md5|e0] eqn:Emd; [|apply Hrest]. simpl.
  unfold fingerprint.
  destruct (isoformat (st_atime st)) as [a|e0] eqn:Ea; simpl.
  - destruct (isoformat (st_mtime st)) as [mt|e1] eqn:Em; simpl.
    + destruct (isoformat (st_ctime st)) as [c|e2] eqn:Ec; simpl.
      * apply Hrest.
      * intros [= ->]. exists p, st, md5.
        split_and!; [apply elem_of_cons; by left | done | done |].
        right; right. exact Ec.
    + intros [= ->]. exists p, st, md5.
      split_and!; [apply elem_of_cons; by left | done | done |].
      right; left. exact Em.
  - intros [= ->]. exists p, st, md5.
    split_and!; [apply elem_of_cons; by left | done | done |].
    left. exact Ea.
Qed.

(** The only exception that leaves [assets_info] is one raised while a
    time stamp is converted: it comes from a listed path whose stat and
    digest both succeeded, and it is the exception of formatting that
    file's access, modification or change time.  No failure of
    [os.stat], [open], [read] or [peek] leaves the function. *)
Theorem assets_info_raises_only_on_timestamps (paths : list string)
    (e : exn) :
  info paths = Raise e ->
  exists path st md5,
    path ∈ paths /\ os_stat path = Ret st /\ md5_of path = Ret md5
    /\ (isoformat (st_atime st) = Raise e
        \/ isoformat (st_mtime st) = Raise e
        \/ isoformat (st_ctime st) = Raise e).
Proof. apply assets_loop_raises. Qed.

End AssetsFurther.

Lemma assets_info_keys_witness :
  dom (<["/data/missing.ckpt" :=
           AssetError nat
             "[Errno 2] No such file or directory: /data/missing.ckpt"]>
       (<["/data/model.ckpt" :=
            AssetRecord nat 42 "2023-11-14T22:13:20" "2023-11-14T22:13:20"
              "2023-11-14T22:13:20" "md5:PKdata" None]>
          (∅ : gmap string (asset_value nat))))
  = (list_to_set
       ["/data/missing.ckpt"; "/data/model.ckpt"; "/data/missing.ckpt"]
     : gset string).
Proof.
  apply (assets_info_keys nat example_stat example_chunks example_md5
           example_isoformat example_import_peek).
  vm_compute. reflexivity.
Defined.

Lemma assets_info_raises_only_on_timestamps_witness :
  exists path st md5,
    path ∈ ["/data/missing.ckpt"; "/data/model.ckpt"]
    /\ far_future_stat path = Ret st
    /\ path_md5 example_chunks example_md5 path = Ret md5
    /\ (strict_isoformat (st_atime st)
        = Raise (ValueError "year is out of range")
        \/ strict_isoformat (st_mtime st)
           = Raise (ValueError "year is out of range")
        \/ strict_isoformat (st_ctime st)
           = Raise (ValueError "year is out of range")).
Proof.
  apply (assets_info_raises_only_on_timestamps nat far_future_stat
           example_chunks example_md5 strict_isoformat example_import_peek).
  vm_compute. reflexivity.
Defined.

(** ** The report *)

Section ReportProperties.

Context (gpu gpu_record peek_value : Type).
Context (Repo : string -> outcome repo).
Context (get_paths : list (string * string)).
Context (sys_modules : gmap string module).
Context (platform_dir : list string).
Context (platform_call : string -> outcome pyval).
Context (to_record : gpu -> gpu_record).
Context (decode_utf8 : list Byte.byte -> outcome string).
Context (strip : string -> string).
Context (import_nvsmi : outcome (nvsmi gpu)).
Context (os_stat : string -> outcome stat_result).
Context (read_chunks : string -> outcome (list (list Byte.byte))).
Context (md5_hexdigest : list Byte.byte -> string).
Context (isoformat : Z -> outcome string).
Context (import_peek : outcome (string -> outcome peek_value)).
Context (sys : interpreter) (utcnow_isoformat : string).

Local Abbreviation gather :=
  (gather_provenance_info gpu gpu_record peek_value Repo get_paths
     sys_modules platform_dir platform_call to_record decode_utf8 strip
     import_nvsmi os_stat read_chunks md5_hexdigest isoformat import_peek
     sys utcnow_isoformat).
Local Abbreviation git_of fuel full :=
  (check_for_git Repo fuel
     (elements (paths (enumerate get_paths sys_modules full))) full).
Local Abbreviation gpus_of :=
  (gpu_info gpu gpu_record to_record decode_utf8 strip import_nvsmi).
Local Abbreviation assets_of :=
  (assets_info peek_value os_stat read_chunks md5_hexdigest isoformat
     import_peek).

(** The keys of the report: a SUMMARY report has the four keys time,
    python, module_versions and git_versions; a FULL report has ten
    keys, among which python is not. *)
Theorem gather_report_keys (fuel : nat) (assets : list string) (full : bool)
    (report : gmap string (report_value gpu_record peek_value))
    (log : list string) :
  gather fuel assets full = Some (Ret (report, log)) ->
  dom report
  = if full
    then {[ "time"; "executable"; "args"; "python_path"; "config_paths";
            "module_versions"; "git_versions"; "platform"; "gpus";
            "assets" ]}
    else ({[ "time"; "python"; "module_versions"; "git_versions" ]}
          : gset string).
Proof.
  unfold gather_provenance_info, module_versions.
  destruct (git_of fuel full) as [[[g l]|e]|]; [|done|done].
  destruct full; cbn [negb].
  - destruct gpus_of as [gp|e]; [|done]. simpl.
    destruct (assets_of assets) as [a|e]; [|done]. simpl.
    intros [= <- _]. vm_compute. reflexivity.
  - intros [= <- _]. vm_compute. reflexivity.
Qed.

End ReportProperties.

Lemma gather_report_keys_witness :
  dom (list_to_map
         [("time", RText nat nat "2023-11-14T22:13:20");
          ("python", RText nat nat "3.11.4");
          ("module_versions",
           RVersions nat nat
             (versions (enumerate example_get_paths example_modules false)));
          ("git_versions", RGit nat nat ∅)]
       : gmap string (report_value nat nat))
  = ({[ "time"; "python"; "module_versions"; "git_versions" ]}
     : gset string).
Proof.
  apply (gather_report_keys nat nat nat no_repo example_get_paths
           example_modules example_platform_dir example_platform_call
           id example_decode example_strip missing_nvsmi example_stat
           example_chunks example_md5 example_isoformat example_import_peek
           example_sys "2023-11-14T22:13:20" 40 ["/data/model.ckpt"] false
           _ []).
  vm_compute. reflexivity.
Defined.

(** On a host without the nvsmi package a SUMMARY report is produced and
    a FULL report fails with the [ImportError]. *)
Example gather_without_nvsmi :
  (exists report,
      gather_provenance_info nat nat nat no_repo example_get_paths
        example_modules example_platform_dir example_platform_call
        id example_decode example_strip missing_nvsmi example_stat
        example_chunks example_md5 example_isoformat example_import_peek
        example_sys "2023-11-14T22:13:20" 40 ["/data/model.ckpt"] false
      = Some (Ret (report, []))
      /\ report !! "python" = Some (RText nat nat "3.11.4"))
  /\ gather_provenance_info nat nat nat no_repo example_get_paths
       example_modules example_platform_dir example_platform_call
       id example_decode example_strip missing_nvsmi example_stat
       example_chunks example_md5 example_isoformat example_import_peek
       example_sys "2023-11-14T22:13:20" 40 ["/data/model.ckpt"] true
     = Some (Raise (ImportError "No module named 'nvsmi'")).
Proof.
  split; [|vm_compute; reflexivity].
  eexists. split; [vm_compute; reflexivity|]. vm_compute. reflexivity.
Qed.

(** ** Attribute access to a [DotDict] *)

Section AttributeProperties.

Context (class_attribute : pyclass -> string -> bool).

Lemma heap_lookup_new (h : heap) (o : object) :
  (h ++ [o])%list !! length h = Some o.
Proof. by rewrite lookup_app_r, Nat.sub_diag. Qed.

Lemma heap_lookup_old (h : heap) (o o' : object) (l : loc) :
  h !! l = Some o -> (h ++ [o'])%list !! l = Some o.
Proof. intros H. by rewrite lookup_app_l by (by eapply lookup_lt_Some). Qed.

(** What [d.attr] gives on a [DotDict] for a name the class does not
    define: [AttributeError(attr)], never [KeyError], when the key is
    missing; the item when it is not a table; for a table a new
    [DotDict] object with the items of the table, every object that
    existed being left as it was. *)
Theorem getattr_DotDict_outcomes (h : heap) (d : loc)
    (t : gmap string toml) (attr : string)
    (Hd : h !! d = Some (Object DotDict_class t))
    (Hattr : class_attribute DotDict_class attr = false) :
  match t !! attr with
  | None => getattr class_attribute h d attr = Raise (AttributeError attr)
  | Some (Leaf v) => getattr class_attribute h d attr = Ret (AValue v, h)
  | Some (Table t') =>
      exists l h',
        getattr class_attribute h d attr = Ret (AObject l, h')
        /\ h !! l = None
        /\ h' !! l = Some (Object DotDict_class t')
        /\ forall l' o, h !! l' = Some o -> h' !! l' = Some o
  end.
Proof.
  unfold getattr, DotDict_getattr, DotDict_getitem, dict_getitem.
  rewrite Hd. cbn [class_of dict_items]. rewrite Hattr.
  destruct (t !! attr) as [[v|t']|]; simpl; [done | | done].
  exists (length h), (h ++ [Object DotDict_class t'])%list.
  split_and!; [done | | apply heap_lookup_new |].
  - apply lookup_ge_None. lia.
  - intros l' o Ho. by apply heap_lookup_old.
Qed.

(** After [d.attr = v] on a [DotDict], [d.attr] gives [v] back exactly
    when [attr] is not a name the class defines; for such a name
    ([keys], [items], ...) the item is stored but the attribute still
    is the one of the class. *)
Theorem setattr_then_getattr (h : heap) (d : loc) (t : gmap string toml)
    (attr : string) (v : pyval)
    (Hd : h !! d = Some (Object DotDict_class t)) :
  DotDict_setattr h d attr (Leaf v) !! d
  = Some (Object DotDict_class (<[attr := Leaf v]> t))
  /\ getattr class_attribute (DotDict_setattr h d attr (Leaf v)) d attr
     = if class_attribute DotDict_class attr
       then Ret (AClassAttribute attr, DotDict_setattr h d attr (Leaf v))
       else Ret (AValue v, DotDict_setattr h d attr (Leaf v)).
Proof.
  assert (DotDict_setattr h d attr (Leaf v) !! d
          = Some (Object DotDict_class (<[attr := Leaf v]> t))) as Hset.
  { unfold DotDict_setattr. rewrite Hd. cbn [class_of dict_items].
    apply list_lookup_insert_eq. by eapply lookup_lt_Some. }
  split; [done|].
  unfold getattr. rewrite Hset. cbn [class_of].
  destruct (class_attribute DotDict_class attr); [done|].
  unfold DotDict_getattr, DotDict_getitem, dict_getitem.
  rewrite Hset. cbn [dict_items]. by rewrite lookup_insert_eq.
Qed.

(** An assignment through a table, [d.a.b = v], is lost: [d.a] is a new
    object, the assignment changes that object, and [d] keeps the items
    it had. *)
Theorem nested_assignment_lost (h : heap) (d : loc)
    (t ta : gmap string toml) (a b : string) (value : toml)
    (Hd : h !! d = Some (Object DotDict_class t))
    (Ha : t !! a = Some (Table ta))
    (Hattr : class_attribute DotDict_class a = false) :
  exists l h',
    getattr class_attribute h d a = Ret (AObject l, h')
    /\ l <> d
    /\ DotDict_setattr h' l b value !! l
       = Some (Object DotDict_class (<[b := value]> ta))
    /\ DotDict_setattr h' l b value !! d = Some (Object DotDict_class t).
Proof.
  exists (length h), (h ++ [Object DotDict_class ta])%list.
  assert (d < length h) as Hlt by (by eapply lookup_lt_Some).
  split_and!.
  - unfold getattr, DotDict_getattr, DotDict_getitem, dict_getitem.
    rewrite Hd. cbn [class_of dict_items]. by rewrite Hattr, Ha.
  - lia.
  - unfold DotDict_setattr. rewrite heap_lookup_new.
    cbn [class_of dict_items]. apply list_lookup_insert_eq.
    rewrite length_app. simpl. lia.
  - unfold DotDict_setattr. rewrite heap_lookup_new.
    etrans; [apply list_lookup_insert_ne; lia | by apply heap_lookup_old].
Qed.

End AttributeProperties.

Lemma getattr_DotDict_outcomes_witness :
  getattr example_class_attribute [Object DotDict_class example_table]
    0 "missing"
  = Raise (AttributeError "missing").
Proof.
  exact (getattr_DotDict_outcomes example_class_attribute
           [Object DotDict_class example_table] 0 example_table "missing"
           eq_refl eq_refl).
Defined.

Lemma setattr_then_getattr_witness :
  DotDict_setattr [Object DotDict_class example_table] 0 "keys"
    (Leaf (PyStr "k")) !! 0
  = Some (Object DotDict_class
            (<["keys" := Leaf (PyStr "k")]> example_table))
  /\ getattr example_class_attribute
       (DotDict_setattr [Object DotDict_class example_table] 0 "keys"
          (Leaf (PyStr "k")))
       0 "keys"
     = Ret (AClassAttribute "keys",
            DotDict_setattr [Object DotDict_class example_table] 0 "keys"
              (Leaf (PyStr "k"))).
Proof.
  exact (setattr_then_getattr example_class_attribute
           [Object DotDict_class example_table] 0 example_table "keys"
           (PyStr "k") eq_refl).
Defined.

Lemma nested_assignment_lost_witness :
  exists l h',
    getattr example_class_attribute [Object DotDict_class example_table]
      0 "dirs"
    = Ret (AObject l, h')
    /\ l <> 0
    /\ DotDict_setattr h' l "cache" (Leaf (PyStr "/scratch")) !! l
       = Some (Object DotDict_class
                 (<["cache" := Leaf (PyStr "/scratch")]>
                    (<["cache" := Leaf (PyStr "/tmp/cache")]> ∅)))
    /\ DotDict_setattr h' l "cache" (Leaf (PyStr "/scratch")) !! 0
       = Some (Object DotDict_class example_table).
Proof.
  apply (nested_assignment_lost example_class_attribute
           [Object DotDict_class example_table] 0 example_table
           (<["cache" := Leaf (PyStr "/tmp/cache")]> ∅) "dirs" "cache"
           (Leaf (PyStr "/scratch")));
    reflexivity.
Defined.

(** ** The cached configuration *)

Section ConfigProperties.

Context (class_attribute : pyclass -> string -> bool).
Context (conf : string).
Context (toml_load : list Byte.byte -> outcome (gmap string toml)).
Context (open_w : string -> outcome unit).
Context (tomllib_name : string).

Lemma install_inv (t : gmap string toml) (s s1 : process) (d : loc) :
  install t s = (Ret d, s1) ->
  d = S (length (objects s))
  /\ s1 = Process ((objects s ++ [Object dict_class t])
                   ++ [Object DotDict_class t])%list
            (Some (length (objects s))) (files s).
Proof.
  unfold install, DotDict. rewrite length_app. cbn [length].
  rewrite Nat.add_1_r. by intros [= <- <-].
Qed.

Lemma load_config_first (s s1 : process) (d : loc) :
  CONFIG s = None ->
  load_config conf toml_load s = (Ret d, s1) ->
  exists t,
    install t s = (Ret d, s1)
    /\ match files s !! conf with
       | Some content => content ≫= toml_load = Ret t
       | None => t = ∅
       end.
Proof.
  unfold load_config. intros ->.
  destruct (files s !! conf) as [content|].
  - destruct (content ≫= toml_load) as [t|e]; [|done]. by exists t.
  - by exists ∅.
Qed.

(** The first call of [load_config] that returns stores a new plain
    dictionary in [CONFIG] and returns another object: a [DotDict] with
    the same items, which are those of the parsed file, or none when the
    file does not exist.  The files and the objects that existed are
    left as they were. *)
Theorem load_config_returns_a_copy (s s1 : process) (d : loc)
    (Hnone : CONFIG s = None)
    (Hload : load_config conf toml_load s = (Ret d, s1)) :
  exists c t,
    CONFIG s1 = Some c /\ d <> c
    /\ objects s1 !! c = Some (Object dict_class t)
    /\ objects s1 !! d = Some (Object DotDict_class t)
    /\ match files s !! conf with
       | Some content => content ≫= toml_load = Ret t
       | None => t = ∅
       end
    /\ files s1 = files s
    /\ forall l o, objects s !! l = Some o -> objects s1 !! l = Some o.
Proof.
  destruct (load_config_first s s1 d Hnone Hload) as (t & Hi & Ht).
  apply install_inv in Hi as [-> ->]. cbn [objects CONFIG files].
  exists (length (objects s)), t. split_and!; [done | lia | | | done | done |].
  - apply heap_lookup_old, heap_lookup_new.
  - rewrite <- (Nat.add_1_r (length (objects s))).
    change 1 with (length [Object dict_class t]). rewrite <- length_app.
    apply heap_lookup_new.
  - intros l o Ho. by apply heap_lookup_old, heap_lookup_old.
Qed.

(** The file is read at most once: after a call that returned, every
    later call returns the dictionary held by [CONFIG] and changes
    nothing, whatever has become of the file; a call that raised has
    left the state as it was, [CONFIG] unset, so that the next call
    reads the file again. *)
Theorem load_config_reads_once (s s1 : process) (r : outcome loc)
    (Hload : load_config conf toml_load s = (r, s1)) :
  match r with
  | Ret _ =>
      exists c,
        CONFIG s1 = Some c
        /\ forall fs,
            load_config conf toml_load (Process (objects s1) (CONFIG s1) fs)
            = (Ret c, Process (objects s1) (CONFIG s1) fs)
  | Raise _ => s1 = s /\ CONFIG s = None
  end.
Proof.
  destruct r as [d|e].
  - destruct (CONFIG s) as [c|] eqn:Ec.
    + unfold load_config in Hload. rewrite Ec in Hload.
      injection Hload as <- <-. exists c. split; [done|].
      intros fs. unfold load_config. cbn [CONFIG]. by rewrite Ec.
    + destruct (load_config_first s s1 d Ec Hload) as (t & Hi & _).
      apply install_inv in Hi as [-> ->]. cbn [objects CONFIG].
      eexists. split; [done|]. intros fs. reflexivity.
  - unfold load_config in Hload. destruct (CONFIG s) as [c|]; [done|].
    destruct (files s !! conf) as [content|].
    + destruct (content ≫= toml_load) as [t|e0]; [done|].
      by injection Hload as <- <-.
    + done.
Qed.

(** Attribute access works on the result of the first call only: the
    first call returns a [DotDict], on which [cfg.key] gives the value
    of a key of the file, and every later call returns the plain
    dictionary of [CONFIG], on which the same [cfg.key] raises
    [AttributeError]. *)
Theorem load_config_attribute_access (s s1 : process) (d : loc)
    (t : gmap string toml) (key : string) (v : pyval)
    (Hnone : CONFIG s = None)
    (Hload : load_config conf toml_load s = (Ret d, s1))
    (Hd : objects s1 !! d = Some (Object DotDict_class t))
    (Hkey : t !! key = Some (Leaf v))
    (Hattr : forall c, class_attribute c key = false) :
  getattr class_attribute (objects s1) d key = Ret (AValue v, objects s1)
  /\ exists c msg,
      load_config conf toml_load s1 = (Ret c, s1)
      /\ getattr class_attribute (objects s1) c key
         = Raise (AttributeError msg).
Proof.
  split.
  - unfold getattr, DotDict_getattr, DotDict_getitem, dict_getitem.
    rewrite Hd. cbn [class_of dict_items]. by rewrite Hattr, Hkey.
  - destruct (load_config_first s s1 d Hnone Hload) as (t' & Hi & _).
    apply install_inv in Hi as [-> ->].
    exists (length (objects s)). eexists. split; [reflexivity|].
    unfold getattr. cbn [objects].
    rewrite (heap_lookup_old _ (Object dict_class t')
               (Object DotDict_class t') _ (heap_lookup_new _ _)).
    cbn [class_of]. by rewrite Hattr.
Qed.

(** What is assigned on the result of the first call does not reach the
    configuration: after [cfg = load_config(); cfg.attr = value] the
    dictionary of [CONFIG], which the next call returns, has the items
    it had. *)
Theorem load_config_assignment_not_kept (s s1 : process) (d : loc)
    (attr : string) (value : toml)
    (Hnone : CONFIG s = None)
    (Hload : load_config conf toml_load s = (Ret d, s1)) :
  exists c t,
    load_config conf toml_load
      (Process (DotDict_setattr (objects s1) d attr value) (CONFIG s1)
         (files s1))
    = (Ret c,
       Process (DotDict_setattr (objects s1) d attr value) (CONFIG s1)
         (files s1))
    /\ objects s1 !! c = Some (Object dict_class t)
    /\ DotDict_setattr (objects s1) d attr value !! c
       = Some (Object dict_class t)
    /\ DotDict_setattr (objects s1) d attr value !! d
       = Some (Object DotDict_class (<[attr := value]> t)).
Proof.
  destruct (load_config_first s s1 d Hnone Hload) as (t & Hi & _).
  apply install_inv in Hi as [-> ->]. cbn [objects CONFIG files].
  exists (length (objects s)), t.
  assert (((objects s ++ [Object dict_class t])
           ++ [Object DotDict_class t])%list !! S (length (objects s))
          = Some (Object DotDict_class t)) as Hd.
  { rewrite <- (Nat.add_1_r (length (objects s))).
    change 1 with (length [Object dict_class t]). rewrite <- length_app.
    apply heap_lookup_new. }
  assert (((objects s ++ [Object dict_class t])
           ++ [Object DotDict_class t])%list !! length (objects s)
          = Some (Object dict_class t)) as Hc.
  { apply heap_lookup_old, heap_lookup_new. }
  unfold DotDict_setattr. rewrite Hd. cbn [class_of dict_items].
  split_and!; [done | done | |].
  - etrans; [apply list_lookup_insert_ne; lia | exact Hc].
  - apply list_lookup_insert_eq. by eapply lookup_lt_Some.
Qed.

(** [save_config] never saves: it raises on every call, it leaves
    [CONFIG] and the objects as they were, and when the file could be
    opened the exception is an [AttributeError] and the file is left
    empty, its former content being lost; the other files are not
    touched. *)
Theorem save_config_never_saves (s : process) :
  (exists e, (save_config conf open_w tomllib_name s).1 = Raise e)
  /\ CONFIG (save_config conf open_w tomllib_name s).2 = CONFIG s
  /\ objects (save_config conf open_w tomllib_name s).2 = objects s
  /\ (forall path,
        path <> conf ->
        files (save_config conf open_w tomllib_name s).2 !! path
        = files s !! path)
  /\ match open_w conf with
     | Ret _ =>
         (exists msg,
             (save_config conf open_w tomllib_name s).1
             = Raise (AttributeError msg))
         /\ files (save_config conf open_w tomllib_name s).2 !! conf
            = Some (Ret [])
     | Raise e =>
         save_config conf open_w tomllib_name s = (Raise e, s)
     end.
Proof.
  unfold save_config. destruct (open_w conf) as [[]|e]; cbn.
  - split_and!;
      [by eexists | done | done | | by eexists | by rewrite lookup_insert_eq].
    intros path Hp. by rewrite lookup_insert_ne.
  - split_and!; [by eexists | done | done | done | done].
Qed.

End ConfigProperties.

Lemma load_config_returns_a_copy_witness :
  exists c t,
    CONFIG example_loaded = Some c /\ 1 <> c
    /\ objects example_loaded !! c = Some (Object dict_class t)
    /\ objects example_loaded !! 1 = Some (Object DotDict_class t)
    /\ match files example_process !! example_conf with
       | Some content => content ≫= example_toml_load = Ret t
       | None => t = ∅
       end
    /\ files example_loaded = files example_process
    /\ forall l o,
        objects example_process !! l = Some o ->
        objects example_loaded !! l = Some o.
Proof.
  apply (load_config_returns_a_copy example_conf example_toml_load
           example_process example_loaded 1);
    reflexivity.
Defined.

Lemma load_config_reads_once_witness :
  exists c,
    CONFIG example_loaded = Some c
    /\ forall fs,
        load_config example_conf example_toml_load
          (Process (objects example_loaded) (CONFIG example_loaded) fs)
        = (Ret c, Process (objects example_loaded) (CONFIG example_loaded) fs).
Proof.
  exact (load_config_reads_once example_conf example_toml_load
           example_process example_loaded (Ret 1) eq_refl).
Defined.

Lemma load_config_attribute_access_witness :
  getattr example_class_attribute (objects example_loaded) 1 "name"
  = Ret (AValue (PyStr "era5"), objects example_loaded)
  /\ exists c msg,
      load_config example_conf example_toml_load example_loaded
      = (Ret c, example_loaded)
      /\ getattr example_class_attribute (objects example_loaded) c "name"
         = Raise (AttributeError msg).
Proof.
  apply (load_config_attribute_access example_class_attribute example_conf
           example_toml_load example_process example_loaded 1
           example_table "name" (PyStr "era5"));
    reflexivity.
Defined.

Lemma load_config_assignment_not_kept_witness :
  exists c t,
    load_config example_conf example_toml_load
      (Process
         (DotDict_setattr (objects example_loaded) 1 "name"
            (Leaf (PyStr "cerra")))
         (CONFIG example_loaded) (files example_loaded))
    = (Ret c,
       Process
         (DotDict_setattr (objects example_loaded) 1 "name"
            (Leaf (PyStr "cerra")))
         (CONFIG example_loaded) (files example_loaded))
    /\ objects example_loaded !! c = Some (Object dict_class t)
    /\ DotDict_setattr (objects example_loaded) 1 "name"
         (Leaf (PyStr "cerra")) !! c
       = Some (Object dict_class t)
    /\ DotDict_setattr (objects example_loaded) 1 "name"
         (Leaf (PyStr "cerra")) !! 1
       = Some (Object DotDict_class (<["name" := Leaf (PyStr "cerra")]> t)).
Proof.
  apply (load_config_assignment_not_kept example_conf example_toml_load
           example_process example_loaded 1 "name" (Leaf (PyStr "cerra")));
    reflexivity.
Defined.

(** A user who loads the configuration, changes it and saves it: the
    change is not in [CONFIG], the save raises and the file is empty. *)
Example load_change_save :
  load_config example_conf example_toml_load example_process
  = (Ret 1, example_loaded)
  /\ dict_items
       <$> DotDict_setattr (objects example_loaded) 1 "name"
             (Leaf (PyStr "cerra")) !! 0
     = Some example_table
  /\ save_config example_conf example_open_w "tomllib" example_loaded
     = (Raise (AttributeError "module 'tomllib' has no attribute 'dump'"),
        Process (objects example_loaded) (Some 0)
          (<[example_conf := Ret []]> (files example_process))).
Proof. split_and!; reflexivity. Qed.
